(** * Trend-to-Product pipeline: a shallow embedding of [src/main.py] and of
    the source adapters under [src/tools/].

    Python [str] values are modelled as Rocq [string]s (code points below
    256); a Python exception is a value of [exn]; code that may raise
    returns a [res]. *)

From Stdlib Require Import String Ascii List ZArith Bool Lia.
Import ListNotations.

Local Open Scope string_scope.
Local Open Scope bool_scope.
#[export] Set Warnings "-register-all".

(** ** Python exceptions and results *)

(** The exceptions the modelled code can see.  [PyError cls msg] is an
    instance of an [Exception] subclass named [cls] whose [str] is [msg];
    [SystemExit] and [KeyboardInterrupt] derive from [BaseException] only,
    so [except Exception] does not catch them. *)
Inductive exn : Type :=
| SystemExit (msg : string)
| KeyboardInterrupt
| PyError (cls : string) (msg : string).

Inductive res (A : Type) : Type :=
| Ok (a : A)
| Raise (e : exn).
Arguments Ok {A} a.
Arguments Raise {A} e.

(** Character helpers. *)
Definition code (c : ascii) : N := N_of_ascii c.
Definition is_char (c : ascii) (n : N) : bool := N.eqb (code c) n.
Definition is_digit (c : ascii) : bool := (48 <=? code c)%N && (code c <=? 57)%N.

(** ** The JSON decoder ([json.JSONDecoder().raw_decode], C scanner) *)
Module Json.

(** Values produced by the decoder.  A JSON float is kept as the literal
    [float()] is applied to ([NaN], [Infinity] and [-Infinity] included);
    a string is its list of code points; an object is the Python [dict]
    built from its members: keys in first-insertion order, last value wins. *)
Inductive json : Type :=
| JNull
| JBool (b : bool)
| JInt (z : Z)
| JFloat (literal : string)
| JStr (cs : list N)
| JArr (items : list json)
| JObj (members : list (list N * json)).

(** Result of [scan_once]: a value and the unconsumed text, a decoding
    failure ([StopIteration] or [JSONDecodeError], both reported by
    [raw_decode] as [JSONDecodeError]), another exception, or exhaustion
    of the fuel (lemma [raw_decode_fuel] shows it never happens). *)
Inductive dres : Type :=
| DOk (v : json) (rest : string)
| DFail
| DRaise (e : exn)
| DNoFuel.

(** [IS_WHITESPACE] of [_json.c]. *)
Definition is_ws (c : ascii) : bool :=
  is_char c 32 || is_char c 9 || is_char c 10 || is_char c 13.

Fixpoint skip_ws (s : string) : string :=
  match s with
  | String c r => if is_ws c then skip_ws r else s
  | EmptyString => s
  end.

Fixpoint codes_eqb (a b : list N) : bool :=
  match a, b with
  | [], [] => true
  | x :: a', y :: b' => N.eqb x y && codes_eqb a' b'
  | _, _ => false
  end.

(** [PyDict_SetItem]: replace the value of an existing key in place,
    otherwise append. *)
Fixpoint dict_insert (k : list N) (v : json) (d : list (list N * json))
  : list (list N * json) :=
  match d with
  | [] => [(k, v)]
  | (k', v') :: d' =>
      if codes_eqb k k' then (k', v) :: d' else (k', v') :: dict_insert k v d'
  end.

(** [d[k]] lookup: [None] is a [KeyError]. *)
Fixpoint dict_get (k : list N) (d : list (list N * json)) : option json :=
  match d with
  | [] => None
  | (k', v) :: d' => if codes_eqb k k' then Some v else dict_get k d'
  end.

Definition hex_val (c : ascii) : option N :=
  let n := code c in
  if (48 <=? n)%N && (n <=? 57)%N then Some (n - 48)%N
  else if (97 <=? n)%N && (n <=? 102)%N then Some (n - 87)%N
  else if (65 <=? n)%N && (n <=? 70)%N then Some (n - 55)%N
  else None.

Definition hex4 (a b c d : ascii) : option N :=
  match hex_val a, hex_val b, hex_val c, hex_val d with
  | Some x, Some y, Some z, Some w => Some (((x * 16 + y) * 16 + z) * 16 + w)%N
  | _, _, _, _ => None
  end.

(** The one-character escapes of [scanstring_unicode]: quote, backslash,
    slash, b, f, n, r, t. *)
Definition simple_escape (e : ascii) : option N :=
  let n := code e in
  if N.eqb n 34 then Some 34%N
  else if N.eqb n 92 then Some 92%N
  else if N.eqb n 47 then Some 47%N
  else if N.eqb n 98 then Some 8%N
  else if N.eqb n 102 then Some 12%N
  else if N.eqb n 110 then Some 10%N
  else if N.eqb n 114 then Some 13%N
  else if N.eqb n 116 then Some 9%N
  else None.

Definition is_high_surrogate (u : N) : bool := (55296 <=? u)%N && (u <=? 56319)%N.
Definition is_low_surrogate (u : N) : bool := (56320 <=? u)%N && (u <=? 57343)%N.
Definition join_surrogates (hi lo : N) : N :=
  (65536 + (hi - 55296) * 1024 + (lo - 56320))%N.

(** [scanstring_unicode] with [strict=True], started after the opening
    quote; [acc] holds the decoded code points in reverse.  [None] is a
    [JSONDecodeError] (unterminated string, invalid control character,
    invalid escape). *)
Fixpoint scan_chars (s : string) (acc : list N) : option (list N * string) :=
  match s with
  | EmptyString => None
  | String c r =>
      if is_char c 34 then Some (rev acc, r)
      else if is_char c 92 then
        match r with
        | EmptyString => None
        | String e r' =>
            if is_char e 117 then
              match r' with
              | String h1 (String h2 (String h3 (String h4 r2))) =>
                  match hex4 h1 h2 h3 h4 with
                  | None => None
                  | Some u =>
                      if is_high_surrogate u then
                        match r2 with
                        | String b (String uu (String g1 (String g2 (String g3 (String g4 r4))))) =>
                            if is_char b 92 && is_char uu 117 && negb (String.eqb r4 EmptyString) then
                              match hex4 g1 g2 g3 g4 with
                              | None => None
                              | Some u2 =>
                                  if is_low_surrogate u2
                                  then scan_chars r4 (join_surrogates u u2 :: acc)
                                  else scan_chars r2 (u :: acc)
                              end
                            else scan_chars r2 (u :: acc)
                        | _ => scan_chars r2 (u :: acc)
                        end
                      else scan_chars r2 (u :: acc)
                  end
              | _ => None
              end
            else
              match simple_escape e with
              | Some n => scan_chars r' (n :: acc)
              | None => None
              end
        end
      else if (code c <? 32)%N then None
      else scan_chars r (code c :: acc)
  end.

(** Plain digits, and their value. *)
Fixpoint span_digits (s : string) : string * string :=
  match s with
  | String c r =>
      if is_digit c then let (ds, r') := span_digits r in (String c ds, r')
      else (EmptyString, s)
  | EmptyString => (EmptyString, EmptyString)
  end.

Fixpoint digits_value (acc : Z) (s : string) : Z :=
  match s with
  | String c r => digits_value (acc * 10 + (Z.of_N (code c) - 48)) r
  | EmptyString => acc
  end.

(** [_match_number_unicode]: an optional minus, then 0 or a nonzero digit
    followed by digits, then an optional fraction (a dot and at least one
    digit), then an optional exponent (e or E, an optional sign, at least
    one digit).  Returns the literal, whether it is a float, and the rest;
    [None] raises [StopIteration]. *)
Definition number_sign (s : string) : string * string :=
  match s with
  | String c r => if is_char c 45 then (String c EmptyString, r) else (EmptyString, s)
  | EmptyString => (EmptyString, s)
  end.

Definition number_int (s : string) : option (string * string) :=
  match s with
  | String c r =>
      if is_digit c && negb (is_char c 48) then
        let (ds, r') := span_digits r in Some (String c ds, r')
      else if is_char c 48 then Some (String c EmptyString, r)
      else None
  | EmptyString => None
  end.

Definition number_frac (s : string) : string * bool * string :=
  match s with
  | String dot (String d r) =>
      if is_char dot 46 && is_digit d then
        let (ds, r') := span_digits r in (String dot (String d ds), true, r')
      else (EmptyString, false, s)
  | _ => (EmptyString, false, s)
  end.

Definition exp_sign (s : string) : string * string :=
  match s with
  | String c r => if is_char c 43 || is_char c 45 then (String c EmptyString, r) else (EmptyString, s)
  | EmptyString => (EmptyString, s)
  end.

Definition number_exp (s : string) : string * bool * string :=
  match s with
  | String e r =>
      if is_char e 101 || is_char e 69 then
        let (sg, r') := exp_sign r in
        let (ds, r'') := span_digits r' in
        if String.eqb ds EmptyString then (EmptyString, false, s)
        else (String e (sg ++ ds), true, r'')
      else (EmptyString, false, s)
  | EmptyString => (EmptyString, false, s)
  end.

Definition match_number (s : string) : option (string * bool * string) :=
  let (sign, s1) := number_sign s in
  match number_int s1 with
  | None => None
  | Some (ip, r1) =>
      let '(frac, isf, r2) := number_frac r1 in
      let '(ex, ise, r3) := number_exp r2 in
      Some (sign ++ ip ++ frac ++ ex, isf || ise, r3)
  end.

Section Decoder.

(** The interpreter's recursion limit, as seen by [Py_EnterRecursiveCall]
    around each nested object or array, and [sys.get_int_max_str_digits()]
    (0 disables the check; Python refuses other values below 640, so the
    640-digit threshold of [PyLong_FromString] never matters). *)
Variable recursion_limit : nat.
Variable int_max_str_digits : nat.

Definition recursion_error (what : string) : exn :=
  PyError "RecursionError"
    ("maximum recursion depth exceeded while decoding a JSON " ++ what ++
     " from a unicode string").

Definition int_digits_error : exn :=
  PyError "ValueError" "Exceeds the limit for integer string conversion".

(** [PyLong_FromString] on an integer literal. *)
Definition decode_int (lit : string) (rest : string) : dres :=
  let '(neg, ds) :=
    match lit with
    | String c r => if is_char c 45 then (true, r) else (false, lit)
    | EmptyString => (false, lit)
    end in
  if negb (Nat.eqb int_max_str_digits 0) && (int_max_str_digits <? String.length ds)%nat
  then DRaise int_digits_error
  else
    let z := digits_value 0 ds in
    DOk (JInt (if neg then Z.opp z else z)) rest.

(** The text after a literal prefix, if [s] starts with it. *)
Fixpoint strip_prefix (p s : string) : option string :=
  match p, s with
  | EmptyString, _ => Some s
  | String a p', String b s' => if Ascii.eqb a b then strip_prefix p' s' else None
  | String _ _, EmptyString => None
  end.

(** The named constants and numbers of [scan_once_unicode]. *)
Definition scan_scalar (s : string) : dres :=
  match strip_prefix "null" s with Some r => DOk JNull r | None =>
  match strip_prefix "true" s with Some r => DOk (JBool true) r | None =>
  match strip_prefix "false" s with Some r => DOk (JBool false) r | None =>
  match strip_prefix "NaN" s with Some r => DOk (JFloat "NaN") r | None =>
  match strip_prefix "Infinity" s with Some r => DOk (JFloat "Infinity") r | None =>
  match strip_prefix "-Infinity" s with Some r => DOk (JFloat "-Infinity") r | None =>
    match match_number s with
    | None => DFail
    | Some (lit, true, rest) => DOk (JFloat lit) rest
    | Some (lit, false, rest) => decode_int lit rest
    end
  end end end end end end.

(** [scan_once_unicode], [_parse_array_unicode] and
    [_parse_object_unicode]; [depth] counts the enclosing containers.
    [parse_array] and [parse_object] start after the opening bracket,
    the [_items] loops at an element (resp. at a member's key). *)
Fixpoint scan_once (fuel depth : nat) (s : string) {struct fuel} : dres :=
  match fuel with
  | O => DNoFuel
  | S f =>
      match s with
      | EmptyString => DFail
      | String c r =>
          if is_char c 34 then
            match scan_chars r [] with
            | Some (cs, r') => DOk (JStr cs) r'
            | None => DFail
            end
          else if is_char c 123 then
            if (recursion_limit <=? depth)%nat then DRaise (recursion_error "object")
            else parse_object f (S depth) r
          else if is_char c 91 then
            if (recursion_limit <=? depth)%nat then DRaise (recursion_error "array")
            else parse_array f (S depth) r
          else scan_scalar s
      end
  end
with parse_array (fuel depth : nat) (s : string) {struct fuel} : dres :=
  match fuel with
  | O => DNoFuel
  | S f =>
      match skip_ws s with
      | String c r =>
          if is_char c 93 then DOk (JArr []) r
          else array_items f depth (String c r) []
      | EmptyString => array_items f depth EmptyString []
      end
  end
with array_items (fuel depth : nat) (s : string) (acc : list json) {struct fuel} : dres :=
  match fuel with
  | O => DNoFuel
  | S f =>
      match scan_once f depth s with
      | DOk v r =>
          match skip_ws r with
          | String c r2 =>
              if is_char c 93 then DOk (JArr (rev (v :: acc))) r2
              else if is_char c 44 then
                match skip_ws r2 with
                | String c' r3 =>
                    if is_char c' 93 then DFail
                    else array_items f depth (String c' r3) (v :: acc)
                | EmptyString => array_items f depth EmptyString (v :: acc)
                end
              else DFail
          | EmptyString => DFail
          end
      | other => other
      end
  end
with parse_object (fuel depth : nat) (s : string) {struct fuel} : dres :=
  match fuel with
  | O => DNoFuel
  | S f =>
      match skip_ws s with
      | String c r =>
          if is_char c 125 then DOk (JObj []) r
          else object_items f depth (String c r) []
      | EmptyString => object_items f depth EmptyString []
      end
  end
with object_items (fuel depth : nat) (s : string)
       (acc : list (list N * json)) {struct fuel} : dres :=
  match fuel with
  | O => DNoFuel
  | S f =>
      match s with
      | String q r =>
          if is_char q 34 then
            match scan_chars r [] with
            | None => DFail
            | Some (k, r1) =>
                match skip_ws r1 with
                | String colon r2 =>
                    if is_char colon 58 then
                      match scan_once f depth (skip_ws r2) with
                      | DOk v r3 =>
                          let acc' := dict_insert k v acc in
                          match skip_ws r3 with
                          | String c r4 =>
                              if is_char c 125 then DOk (JObj acc') r4
                              else if is_char c 44 then
                                match skip_ws r4 with
                                | String c' r5 =>
                                    if is_char c' 125 then DFail
                                    else object_items f depth (String c' r5) acc'
                                | EmptyString => object_items f depth EmptyString acc'
                                end
                              else DFail
                          | EmptyString => DFail
                          end
                      | other => other
                      end
                    else DFail
                | EmptyString => DFail
                end
            end
          else DFail
      | EmptyString => DFail
      end
  end.

(** [decoder.raw_decode(text, idx)] applied to the suffix of [text] that
    starts at [idx]. *)
Definition raw_decode (s : string) : dres :=
  scan_once (3 * String.length s + 1) 0 s.

(** [str.find] for a one-character needle. *)
Fixpoint str_find (c : ascii) (s : string) : option nat :=
  match s with
  | EmptyString => None
  | String c' r =>
      if Ascii.eqb c c' then Some 0
      else match str_find c r with Some n => Some (S n) | None => None end
  end.

Fixpoint str_drop (n : nat) (s : string) : string :=
  match n, s with
  | O, _ => s
  | S n', String _ r => str_drop n' r
  | S _, EmptyString => EmptyString
  end.

(** One iteration of the loop of [_parse_json]: [None] is [continue]. *)
Definition try_start (start_char : ascii) (text : string) : option (res json) :=
  match str_find start_char text with
  | None => None
  | Some idx =>
      match raw_decode (str_drop idx text) with
      | DOk obj _ => Some (Ok obj)
      | DRaise e => Some (Raise e)
      | DFail | DNoFuel => None
      end
  end.

(** [_parse_json(text)]: [Ok None] is the function returning [None]. *)
Definition parse_json (text : string) : res (option json) :=
  match try_start "{"%char text with
  | Some (Ok obj) => Ok (Some obj)
  | Some (Raise e) => Raise e
  | None =>
      match try_start "["%char text with
      | Some (Ok obj) => Ok (Some obj)
      | Some (Raise e) => Raise e
      | None => Ok None
      end
  end.

End Decoder.

(** An object or an array: what the spec calls a JSON value. *)
Definition is_container (v : json) : bool :=
  match v with JObj _ | JArr _ => true | _ => false end.

End Json.

(** ** Python string helpers *)

(** [str.isspace] on code points below 256. *)
Definition py_isspace (c : ascii) : bool :=
  let n := code c in
  ((9 <=? n)%N && (n <=? 13)%N) || ((28 <=? n)%N && (n <=? 32)%N)
  || N.eqb n 133 || N.eqb n 160.

Fixpoint py_lstrip (s : string) : string :=
  match s with
  | String c r => if py_isspace c then py_lstrip r else s
  | EmptyString => s
  end.

Fixpoint py_rstrip (s : string) : string :=
  match s with
  | String c r =>
      let r' := py_rstrip r in
      if String.eqb r' EmptyString && py_isspace c then EmptyString else String c r'
  | EmptyString => s
  end.

(** [str.strip()]. *)
Definition py_strip (s : string) : string := py_rstrip (py_lstrip s).

(** [str.lower()] on code points below 256. *)
Definition py_lower_char (c : ascii) : ascii :=
  let n := code c in
  if ((65 <=? n)%N && (n <=? 90)%N) || ((192 <=? n)%N && (n <=? 222)%N && negb (N.eqb n 215))
  then ascii_of_N (n + 32) else c.

Fixpoint py_lower (s : string) : string :=
  match s with
  | String c r => String (py_lower_char c) (py_lower r)
  | EmptyString => s
  end.

(** The code points of a literal key. *)
Fixpoint codes (s : string) : list N :=
  match s with
  | String c r => code c :: codes r
  | EmptyString => []
  end.

(** ** The pipeline orchestrator ([_run_pipeline] with [dry_run=False]) *)
Module Pipeline.
Import Json.

Inductive stage : Type := Scout | Critic | Architect | Builder.

(** Observable effects: an Agent Executor run ([_run_crew]), a text
    artifact written by the orchestrator itself, a [git_init]. *)
Inductive event : Type :=
| RunCrew (st : stage)
| WriteText (path : string) (content : json)
| GitInit (dir : string).

(** One line read by [input()], or the operator pressing Ctrl-C there. *)
Inductive input_line : Type := Line (l : string) | CtrlC.

(** A row of the [runs] table. *)
Record run_row : Type := {
  run_id : nat;
  run_topic : option string;
  run_status : string;
  run_error : option string;
  run_finished : bool
}.

Record state : Type := {
  ledger : list run_row;
  stdin : list input_line;
  trace : list event
}.

(** What the orchestrator gets from outside: the environment, the outcome
    of each [Crew(...).kickoff()], the file the Critic task wrote, whether
    [output/<slug>] exists after the Builder, [float(lit) == k] on the
    interpreter's floats, [slugify] of [agents.builder] and the
    interpreter limits used by the JSON decoder. *)
Record env : Type := {
  api_key_set : bool;
  config_exn : option exn;
  crew_exn : stage -> option exn;
  critic_file : option string;
  project_dir_exists : bool;
  float_equals : string -> Z -> bool;
  slugify : json -> string;
  recursion_limit : nat;
  int_max_str_digits : nat
}.

Definition M (A : Type) : Type := state -> res A * state.

Definition ret {A} (a : A) : M A := fun s => (Ok a, s).
Definition raise {A} (x : exn) : M A := fun s => (Raise x, s).
Definition bind {A B} (m : M A) (k : A -> M B) : M B :=
  fun s => match m s with
           | (Ok a, s') => k a s'
           | (Raise x, s') => (Raise x, s')
           end.
(** [try: m except ...: h]: [h] receives every exception and re-raises
    what it does not handle. *)
Definition try_except {A} (m : M A) (h : exn -> M A) : M A :=
  fun s => match m s with
           | (Ok a, s') => (Ok a, s')
           | (Raise x, s') => h x s'
           end.

Notation "x <- m ;; k" := (bind m (fun x => k))
  (at level 61, m at next level, right associativity).
Notation "m ;; k" := (bind m (fun _ => k)) (at level 61, right associativity).

Definition emit (ev : event) : M unit :=
  fun s => (Ok tt, {| ledger := ledger s; stdin := stdin s; trace := trace s ++ [ev] |}).

Definition emit_all (evs : list event) : M unit :=
  fun s => (Ok tt, {| ledger := ledger s; stdin := stdin s; trace := (trace s ++ evs)%list |}).

(** Modelled from the spec: [git_init] of [agents/builder.py], which is
    not under [src/].  The spec calls it the git-init-style finalization
    of a project directory: its one effect is on that directory, it reads
    no stage artifact and does not drive the Project Writer. *)
Definition git_init (project_dir : string) : list event := [GitInit project_dir].

(** [input(prompt)]: [EOFError] at the end of the input. *)
Definition eof_error : exn := PyError "EOFError" "EOF when reading a line".

Definition read_line : M string :=
  fun s => match stdin s with
           | [] => (Raise eof_error, s)
           | l :: rest =>
               let s' := {| ledger := ledger s; stdin := rest; trace := trace s |} in
               match l with
               | Line t => (Ok t, s')
               | CtrlC => (Raise KeyboardInterrupt, s')
               end
           end.

(** *** Run Ledger ([storage/recorder.py]) *)

(** [start_run]: a new [running] row whose autoincremented id is one more
    than the number of rows (rows are never deleted). *)
Definition start_run (topic : option string) : M nat :=
  fun s =>
    let id := S (length (ledger s)) in
    (Ok id, {| ledger := ledger s ++ [{| run_id := id; run_topic := topic;
                                          run_status := "running"; run_error := None;
                                          run_finished := false |}];
               stdin := stdin s; trace := trace s |}).

Definition finish_row (run : nat) (status : string) (err : option string) (r : run_row) : run_row :=
  if Nat.eqb (run_id r) run
  then {| run_id := run_id r; run_topic := run_topic r; run_status := status;
          run_error := err; run_finished := true |}
  else r.

(** [finish_run]: update the row if it exists. *)
Definition finish_run (run : nat) (status : string) (err : option string) : M unit :=
  fun s => (Ok tt, {| ledger := map (finish_row run status err) (ledger s);
                      stdin := stdin s; trace := trace s |}).

Fixpoint find_run (run : nat) (l : list run_row) : option run_row :=
  match l with
  | [] => None
  | r :: l' => if Nat.eqb (run_id r) run then Some r else find_run run l'
  end.

(** *** Python operations on decoded values *)

(** [bool(v)]. *)
Definition truthy (e : env) (v : json) : bool :=
  match v with
  | JNull => false
  | JBool b => b
  | JInt z => negb (Z.eqb z 0)
  | JFloat lit => negb (float_equals e lit 0)
  | JStr cs => negb (Nat.eqb (length cs) 0)
  | JArr l => negb (Nat.eqb (length l) 0)
  | JObj m => negb (Nat.eqb (length m) 0)
  end.

(** [v == k] for an [int] [k] ([True == 1], [1.0 == 1]). *)
Definition py_eq_int (e : env) (v : json) (k : Z) : bool :=
  match v with
  | JInt z => Z.eqb z k
  | JBool b => Z.eqb (if b then 1 else 0) k
  | JFloat lit => float_equals e lit k
  | _ => false
  end.

Definition type_name (v : json) : string :=
  match v with
  | JNull => "NoneType" | JBool _ => "bool" | JInt _ => "int" | JFloat _ => "float"
  | JStr _ => "str" | JArr _ => "list" | JObj _ => "dict"
  end.

(** [v[key]] for a string [key]. *)
Definition getitem (v : json) (key : string) : res json :=
  match v with
  | JObj m =>
      match dict_get (codes key) m with
      | Some x => Ok x
      | None => Raise (PyError "KeyError" ("'" ++ key ++ "'"))
      end
  | JStr _ => Raise (PyError "TypeError" "string indices must be integers, not 'str'")
  | JArr _ => Raise (PyError "TypeError" "list indices must be integers or slices, not str")
  | _ => Raise (PyError "TypeError" ("'" ++ type_name v ++ "' object is not subscriptable"))
  end.

(** [for x in v]: the items of a list, the keys of a dict, the characters
    of a str. *)
Definition py_iter (v : json) : res (list json) :=
  match v with
  | JArr l => Ok l
  | JObj m => Ok (map (fun kv => JStr (fst kv)) m)
  | JStr cs => Ok (map (fun c => JStr [c]) cs)
  | _ => Raise (PyError "TypeError" ("'" ++ type_name v ++ "' object is not iterable"))
  end.

Definition lift {A} (r : res A) : M A :=
  fun s => (r, s).

(** *** Stages *)

(** [_run_crew]: one Agent Executor run. *)
Definition run_crew (e : env) (st : stage) : M unit :=
  emit (RunCrew st) ;;
  match crew_exn e st with
  | None => ret tt
  | Some x => raise x
  end.

Definition stage_scout (e : env) : M unit := run_crew e Scout.

Definition stage_architect (e : env) : M unit := run_crew e Architect.

(** [_parse_json_file]: a missing file raises [FileNotFoundError]. *)
Definition parse_json_file (e : env) (contents : option string) : M (option json) :=
  match contents with
  | None =>
      raise (PyError "FileNotFoundError"
               "[Errno 2] No such file or directory: 'storage/critic_top3.json'")
  | Some t =>
      let text := py_strip t in
      if String.eqb text EmptyString then ret None
      else lift (parse_json (recursion_limit e) (int_max_str_digits e) text)
  end.

(** The value [top3] of [_stage_critic]: [raw.get("top3")] for a dict,
    [raw] itself otherwise. *)
Definition top3_of (raw : json) : json :=
  match raw with
  | JObj m => match dict_get (codes "top3") m with Some t => t | None => JNull end
  | _ => raw
  end.

Definition stage_critic (e : env) : M json :=
  run_crew e Critic ;;
  raw <- parse_json_file e (critic_file e) ;;
  match raw with
  | Some v =>
      if truthy e v then
        let top3 := top3_of v in
        if truthy e top3 then ret top3
        else raise (SystemExit "Critic output missing 'top3' list.")
      else raise (SystemExit "Critic produced no parseable output.")
  | None => raise (SystemExit "Critic produced no parseable output.")
  end.

(** The display loop of [_prompt_idea_choice]: each idea must have the
    five fields. *)
Definition show_idea (idea : json) : res unit :=
  match getitem idea "rank", getitem idea "trend_title", getitem idea "one_liner",
        getitem idea "feasibility_score", getitem idea "target_user" with
  | Raise x, _, _, _, _ | Ok _, Raise x, _, _, _ | Ok _, Ok _, Raise x, _, _
  | Ok _, Ok _, Ok _, Raise x, _ | Ok _, Ok _, Ok _, Ok _, Raise x => Raise x
  | Ok _, Ok _, Ok _, Ok _, Ok _ => Ok tt
  end.

Fixpoint show_ideas (ideas : list json) : res unit :=
  match ideas with
  | [] => Ok tt
  | idea :: rest => match show_idea idea with Ok _ => show_ideas rest | Raise x => Raise x end
  end.

(** [next(x for x in top3 if x["rank"] == k)]. *)
Fixpoint next_rank (e : env) (ideas : list json) (k : Z) : res json :=
  match ideas with
  | [] => Raise (PyError "StopIteration" "")
  | x :: rest =>
      match getitem x "rank" with
      | Ok r => if py_eq_int e r k then Ok x else next_rank e rest k
      | Raise err => Raise err
      end
  end.

(** The accepted answers of the selection prompt and [int(choice)]. *)
Definition choice_value (choice : string) : option Z :=
  if String.eqb choice "1" then Some 1%Z
  else if String.eqb choice "2" then Some 2%Z
  else if String.eqb choice "3" then Some 3%Z
  else None.

(** The [while True] loop of [_prompt_idea_choice], one iteration per line
    of input. *)
Fixpoint choice_loop (e : env) (ideas : list json) (lines : list input_line)
  : res json * list input_line :=
  match lines with
  | [] => (Raise eof_error, [])
  | CtrlC :: rest => (Raise KeyboardInterrupt, rest)
  | Line l :: rest =>
      match choice_value (py_strip l) with
      | Some k =>
          (match next_rank e ideas k with
           | Ok x => match getitem x "trend_title" with Ok _ => Ok x | Raise err => Raise err end
           | Raise err => Raise err
           end, rest)
      | None => choice_loop e ideas rest
      end
  end.

Definition set_stdin (s : state) (l : list input_line) : state :=
  {| ledger := ledger s; stdin := l; trace := trace s |}.

Definition prompt_idea_choice (e : env) (top3 : json) : M json :=
  ideas <- lift (py_iter top3) ;;
  lift (show_ideas ideas) ;;
  chosen <- (fun s => let (r, rest) := choice_loop e ideas (stdin s) in (r, set_stdin s rest)) ;;
  emit (WriteText "storage/chosen_idea.json" chosen) ;;
  ret chosen.

(** The [while True] loop of [_prompt_design_approval]. *)
Fixpoint approval_loop (lines : list input_line) : res bool * list input_line :=
  match lines with
  | [] => (Raise eof_error, [])
  | CtrlC :: rest => (Raise KeyboardInterrupt, rest)
  | Line l :: rest =>
      let choice := py_lower (py_strip l) in
      if String.eqb choice "y" || String.eqb choice "yes" then (Ok true, rest)
      else if String.eqb choice "n" || String.eqb choice "no" then (Ok false, rest)
      else approval_loop rest
  end.

(** [_prompt_design_approval]; the design sheet is only printed. *)
Definition prompt_design_approval : M bool :=
  fun s => let (r, rest) := approval_loop (stdin s) in (r, set_stdin s rest).

(** [_stage_builder]: [chosen.get("trend_title", "project")] names the
    project directory. *)
Definition stage_builder (e : env) (chosen : json) : M unit :=
  run_crew e Builder ;;
  let title := match chosen with
               | JObj m => match dict_get (codes "trend_title") m with
                           | Some t => t | None => JStr (codes "project") end
               | _ => JStr (codes "project")
               end in
  if project_dir_exists e then emit_all (git_init ("output/" ++ slugify e title))
  else ret tt.

(** *** [_run_pipeline] *)

Definition check_api_key (e : env) : M unit :=
  if api_key_set e then ret tt
  else raise (SystemExit "Error: ANTHROPIC_API_KEY is not set. Add it to .env or your environment.").

(** [_load_yaml] of [agents.yaml] and [tasks.yaml]. *)
Definition load_config (e : env) : M unit :=
  match config_exn e with None => ret tt | Some x => raise x end.

(** Everything before the [try] block. *)
Definition start_phase (e : env) (topic : option string) : M nat :=
  check_api_key e ;; load_config e ;; start_run topic.

(** Stages 1 to 3a of the [try] block. *)
Definition until_approval (e : env) : M json :=
  stage_scout e ;;
  top3 <- stage_critic e ;;
  chosen <- prompt_idea_choice e top3 ;;
  stage_architect e ;;
  ret chosen.

Definition abort_message : string := "Aborted by user after design review".

Definition pipeline_body (e : env) (run : nat) : M unit :=
  chosen <- until_approval e ;;
  approved <- prompt_design_approval ;;
  if negb approved then
    finish_run run "error" (Some abort_message) ;;
    raise (SystemExit "Aborted. Edit storage/design_sheet.md or re-run to get a new design.")
  else
    stage_builder e chosen ;;
    finish_run run "success" None.

(** The two [except] clauses; [SystemExit] is no [Exception] and
    propagates. *)
Definition handlers (run : nat) (x : exn) : M unit :=
  match x with
  | KeyboardInterrupt =>
      finish_run run "error" (Some "KeyboardInterrupt") ;;
      raise (SystemExit (String (ascii_of_nat 10) "Interrupted."))
  | PyError _ msg =>
      finish_run run "error" (Some msg) ;;
      raise (SystemExit ("Pipeline error: " ++ msg))
  | SystemExit m => raise (SystemExit m)
  end.

Definition run_pipeline (e : env) (topic : option string) : M unit :=
  run <- start_phase e topic ;;
  try_except (pipeline_body e run) (handlers run).

(** Exit status of the process: [sys.exit(msg)] and uncaught exceptions
    exit non-zero. *)
Definition exit_nonzero (r : res unit) : bool :=
  match r with Ok _ => false | Raise _ => true end.

(** *** [_run_pipeline] with [dry_run=True] *)

(** [t.get(...)] on an element of the trend list: only a dict has [get]. *)
Definition has_get (t : json) : res unit :=
  match t with
  | JObj _ => Ok tt
  | _ => Raise (PyError "AttributeError" ("'" ++ type_name t ++ "' object has no attribute 'get'"))
  end.

(** The [for i, t in enumerate(trends, 1)] loop; printing cannot fail. *)
Fixpoint print_trends (ts : list json) : res unit :=
  match ts with
  | [] => Ok tt
  | t :: rest => match has_get t with Ok _ => print_trends rest | Raise x => Raise x end
  end.

(** The preview run: [trend_file] is the content of
    [storage/trend_list.json], [None] when it does not exist. *)
Definition dry_run (e : env) (trend_file : option string) : M unit :=
  check_api_key e ;; load_config e ;;
  stage_scout e ;;
  trends <- (match trend_file with
             | Some _ => parse_json_file e trend_file
             | None => ret None
             end) ;;
  match trends with
  | Some v =>
      if truthy e v then (ts <- lift (py_iter v) ;; lift (print_trends ts))
      else ret tt
  | None => ret tt
  end.

End Pipeline.

(** ** Recovery mode ([_recover]) *)
Module Recover.
Import Pipeline.

(** The file system as [_recover] can see it: whether [output/] exists,
    its entries (name, is a directory), and the Construction artifact
    [storage/builder_output.txt]. *)
Record fs : Type := {
  output_exists : bool;
  output_entries : list (string * bool);
  builder_output : option string
}.

(** [sorted()] on the paths [output/<name>]: they compare by [name]. *)
Fixpoint insert_entry (x : string * bool) (l : list (string * bool)) : list (string * bool) :=
  match l with
  | [] => [x]
  | y :: l' => if String.leb (fst x) (fst y) then x :: y :: l' else y :: insert_entry x l'
  end.

Fixpoint sort_entries (l : list (string * bool)) : list (string * bool) :=
  match l with
  | [] => []
  | x :: l' => insert_entry x (sort_entries l')
  end.

Fixpoint last_entry (l : list (string * bool)) : option (string * bool) :=
  match l with
  | [] => None
  | [x] => Some x
  | _ :: l' => last_entry l'
  end.

Definition no_dirs_message : string :=
  "No directories found in output/. Run the full pipeline first.".

(** [_recover()]: the outcome and the effects, in order. *)
Definition recover (f : fs) : res unit * list event :=
  let dirs := if output_exists f then sort_entries (output_entries f) else [] in
  let dirs := filter snd dirs in
  match last_entry dirs with
  | None => (Raise (SystemExit no_dirs_message), [])
  | Some (d, _) => (Ok tt, git_init ("output/" ++ d))
  end.

End Recover.

(** ** Source adapters ([src/tools/*_scraper.py]) *)
Module Adapters.

(** An element of the JSON list an adapter returns: a candidate record
    (its [source] tag and [title]; the other fields play no part here) or
    the error marker [{"error": msg, "source": tag}]. *)
Inductive record : Type :=
| Item (source : string) (title : string)
| ErrorMarker (error : string) (source : string).

(** The outcome of code run inside a [try]: a value, or an [Exception]
    whose [str] is the message. *)
Inductive outcome (A : Type) : Type :=
| Done (a : A)
| Fails (msg : string).
Arguments Done {A} a.
Arguments Fails {A} msg.

(** What an adapter returns, and whether it attempted a network call. *)
Definition result : Type := list record * bool.

(** [HackerNewsTool._run]: the request, [raise_for_status], [resp.json()]
    and the record building form one [try]. *)
Definition hn_run (fetch : outcome (list string)) : result :=
  match fetch with
  | Done titles => (map (Item "hackernews") titles, true)
  | Fails m => ([ErrorMarker m "hackernews"], true)
  end.

(** [GitHubTrendingTool._run]. *)
Definition github_run (fetch : outcome (list string)) : result :=
  match fetch with
  | Done titles => (map (Item "github_trending") titles, true)
  | Fails m => ([ErrorMarker m "github_trending"], true)
  end.

(** [os.getenv(name)] is truthy. *)
Definition env_set (v : option string) : bool :=
  match v with Some x => negb (String.eqb x EmptyString) | None => false end.

(** [ProductHuntTool._run]. *)
Definition producthunt_run (api_key : option string) (fetch : outcome (list string)) : result :=
  if negb (env_set api_key) then
    ([ErrorMarker "PRODUCTHUNT_API_KEY not set" "producthunt"], false)
  else
    match fetch with
    | Done titles => (map (Item "producthunt") titles, true)
    | Fails m => ([ErrorMarker m "producthunt"], true)
    end.

(** [subreddits.split(",")]. *)
Fixpoint split_comma_aux (cur : string) (s : string) : list string :=
  match s with
  | EmptyString => [cur]
  | String c r =>
      if is_char c 44 then cur :: split_comma_aux EmptyString r
      else split_comma_aux (cur ++ String c EmptyString) r
  end.

Definition split_comma (s : string) : list string := split_comma_aux EmptyString s.

(** One subreddit: the titles of the posts [hot()] yields, then the
    exception that ends the iteration, if any. *)
Definition sub_fetch : Type := string -> list string * option string.

(** [RedditTool._run]: [praw_init] covers [import praw] and
    [praw.Reddit(...)]; the inner [try] logs a failing subreddit and goes
    on with the next one, keeping the posts already appended. *)
Definition reddit_run (client_id client_secret : option string)
    (praw_init : outcome unit) (fetch : sub_fetch) (subreddits : string) : result :=
  if negb (env_set client_id) || negb (env_set client_secret) then
    ([ErrorMarker "REDDIT_CLIENT_ID/SECRET not set" "reddit"], false)
  else
    match praw_init with
    | Fails m => ([ErrorMarker m "reddit"], true)
    | Done _ =>
        (flat_map (fun sub =>
                     let sub := py_strip sub in
                     map (Item ("reddit/r/" ++ sub)) (fst (fetch sub)))
                  (split_comma subreddits), true)
    end.

(** [_fetch_via_module]: the import fails, or the scraper yields tweets
    and then ends or raises. *)
Inductive module_run : Type :=
| ModImportError
| ModStream (tweets : list string) (fails : option string).

(** [_fetch_via_module(query, limit)]: the loop fetches item [limit]
    before it breaks. *)
Definition fetch_via_module (m : module_run) (limit : nat) : outcome (list string) :=
  match m with
  | ModImportError => Fails "No module named 'snscrape'"
  | ModStream tweets fails =>
      if (limit <? length tweets)%nat then Done (firstn limit tweets)
      else match fails with
           | None => Done tweets
           | Some msg => Fails msg
           end
  end.

(** [subprocess.run(...)]: it raises (e.g. no [python] executable, time
    out), or completes with its standard output, one line per entry,
    [Some title] when [json.loads] and the field accesses succeed. *)
Inductive subprocess_run : Type :=
| SubRaises (msg : string)
| SubCompleted (lines : list (option string)).

Definition fetch_via_subprocess (p : subprocess_run) : outcome (list string) :=
  match p with
  | SubRaises msg => Fails msg
  | SubCompleted lines => Done (flat_map (fun l => match l with Some t => [t] | None => [] end) lines)
  end.

(** [TwitterTool._run]. *)
Definition twitter_run (m : module_run) (p : subprocess_run) (limit : nat) : result :=
  match fetch_via_module m limit with
  | Done tweets => (map (Item "twitter") tweets, true)
  | Fails _ =>
      match fetch_via_subprocess p with
      | Done tweets => (map (Item "twitter") tweets, true)
      | Fails msg => ([ErrorMarker msg "twitter"], true)
      end
  end.

End Adapters.

(** ** The message patch ([src/patches.py]) *)
Module Patches.
Import Json Pipeline.

(** [messages[-1].get("role") == "assistant"]: [get] of a dict, [None]
    for a missing key, equality with a [str]; other values have no
    [get]. *)
Definition is_assistant (m : json) : res bool :=
  match m with
  | JObj d =>
      Ok (match dict_get (codes "role") d with
          | Some (JStr cs) => codes_eqb cs (codes "assistant")
          | _ => false
          end)
  | _ => Raise (PyError "AttributeError" ("'" ++ type_name m ++ "' object has no attribute 'get'"))
  end.

(** The [while] loop on the list read from its end: [r] is the list
    reversed. *)
Fixpoint strip_trailing_rev (r : list json) : res (list json) :=
  match r with
  | [] => Ok []
  | m :: r' =>
      match is_assistant m with
      | Ok true => strip_trailing_rev r'
      | Ok false => Ok r
      | Raise x => Raise x
      end
  end.

(** [_patched_format(self, messages)]; [original] is
    [_original_format] with its [self]. *)
Definition patched_format {A} (original : json -> res A) (messages : json) : res A :=
  match messages with
  | JArr l =>
      match strip_trailing_rev (rev l) with
      | Ok r => original (JArr (rev r))
      | Raise x => Raise x
      end
  | _ => original messages
  end.

End Patches.

(** ** The Project Writer ([FileWriterTool._run], [src/tools/file_writer.py])

    Python strings are lists of code points; paths go through [pathlib]
    (Python 3.12), [os.fsencode] (UTF-8 with [surrogateescape]) and the
    POSIX calls [mkdir], [stat] and [open] on a tree of directories and
    regular files (no links, no permissions, no capacity limit); the paths
    the code passes to the system never end with a slash unless they are
    a root. *)
Module FileWriter.
Import Json.
Local Open Scope list_scope.

Definition pystr : Type := list N.
Definition bytes : Type := list N.

(** *** Formatting *)

Definition hex_digit (d : N) : N := if (d <? 10)%N then (48 + d)%N else (87 + d)%N.

(** [%0<w>x]. *)
Fixpoint hex_fixed (w : nat) (n : N) (acc : pystr) : pystr :=
  match w with
  | O => acc
  | S w' => hex_fixed w' (n / 16)%N (hex_digit (n mod 16)%N :: acc)
  end.

(** [%d] of a non-negative number; the fuel [log2 n + 1] exceeds its
    number of decimal digits. *)
Fixpoint dec_aux (fuel : nat) (n : N) (acc : pystr) : pystr :=
  match fuel with
  | O => acc
  | S f =>
      let acc' := (48 + n mod 10)%N :: acc in
      if (n <? 10)%N then acc' else dec_aux f (n / 10)%N acc'
  end.

Definition dec (n : N) : pystr := dec_aux (S (N.to_nat (N.log2 n))) n [].

Section Repr.
(** [Py_UNICODE_ISPRINTABLE] for the non-ASCII code points (the Unicode
    database). *)
Variable printable : N -> bool.

(** One character of [repr(s)] quoted with [quote] ([unicode_repr]). *)
Definition repr_char (quote c : N) : pystr :=
  if N.eqb c quote || N.eqb c 92 then [92; c]%N
  else if N.eqb c 9 then [92; 116]%N
  else if N.eqb c 10 then [92; 110]%N
  else if N.eqb c 13 then [92; 114]%N
  else if (c <? 32)%N || N.eqb c 127 then 92%N :: 120%N :: hex_fixed 2 c []
  else if (c <? 127)%N then [c]
  else if printable c then [c]
  else if (c <=? 255)%N then 92%N :: 120%N :: hex_fixed 2 c []
  else if (c <=? 65535)%N then 92%N :: 117%N :: hex_fixed 4 c []
  else 92%N :: 85%N :: hex_fixed 8 c [].

(** [repr(s)]: double quotes when [s] holds a single quote and no double
    quote, single quotes otherwise. *)
Definition py_repr (s : pystr) : pystr :=
  let quote := if existsb (N.eqb 39) s && negb (existsb (N.eqb 34) s) then 34%N else 39%N in
  quote :: flat_map (repr_char quote) s ++ [quote].
End Repr.

(** *** Encoding ([os.fsencode] and [str.encode("utf-8")]) *)

Definition is_surrogate (c : N) : bool := (55296 <=? c)%N && (c <=? 57343)%N.

Definition utf8_char (c : N) : bytes :=
  if (c <? 128)%N then [c]
  else if (c <? 2048)%N then [192 + c / 64; 128 + c mod 64]%N
  else if (c <? 65536)%N then [224 + c / 4096; 128 + (c / 64) mod 64; 128 + c mod 64]%N
  else [240 + c / 262144; 128 + (c / 4096) mod 64; 128 + (c / 64) mod 64; 128 + c mod 64]%N.

(** The length of the run of surrogates at the start of [s]. *)
Fixpoint surrogate_run (s : pystr) : nat :=
  match s with
  | c :: r => if is_surrogate c then S (surrogate_run r) else O
  | [] => O
  end.

Inductive handler : Type := Strict | SurrogateEscape.

(** The UTF-8 encoder: the bytes, or the range [start, end) of the
    [UnicodeEncodeError] ("surrogates not allowed"), which runs from the
    first surrogate the handler cannot map to the end of its run of
    surrogates; [surrogateescape] maps U+DC80..U+DCFF to one byte. *)
Fixpoint utf8_encode (h : handler) (i : nat) (s : pystr) : bytes + (nat * nat) :=
  match s with
  | [] => inl []
  | c :: r =>
      if is_surrogate c then
        match h with
        | SurrogateEscape =>
            if (56448 <=? c)%N && (c <=? 56575)%N then
              match utf8_encode h (S i) r with
              | inl b => inl ((c - 56320)%N :: b)
              | inr e => inr e
              end
            else inr (i, (i + surrogate_run s)%nat)
        | Strict => inr (i, (i + surrogate_run s)%nat)
        end
      else
        match utf8_encode h (S i) r with
        | inl b => inl (utf8_char c ++ b)
        | inr e => inr e
        end
  end.

(** *** Exceptions *)

Inductive oserr : Type := ENOENT | ENOTDIR | EEXIST | EISDIR.

Definition errno (e : oserr) : N :=
  match e with ENOENT => 2 | ENOTDIR => 20 | EEXIST => 17 | EISDIR => 21 end.

Definition strerror (e : oserr) : string :=
  match e with
  | ENOENT => "No such file or directory"
  | ENOTDIR => "Not a directory"
  | EEXIST => "File exists"
  | EISDIR => "Is a directory"
  end.

(** [OSError] with its [filename]; [ValueError]; [UnicodeEncodeError]
    of the codec [utf-8] on [obj] for the range [start, end). *)
Inductive wexn : Type :=
| OSError (e : oserr) (filename : pystr)
| ValueError (msg : pystr)
| UnicodeEncodeError (obj : pystr) (start stop : nat).

Definition exn_str (printable : N -> bool) (x : wexn) : pystr :=
  match x with
  | OSError e name =>
      codes "[Errno " ++ dec (errno e) ++ codes "] " ++ codes (strerror e) ++ codes ": "
      ++ py_repr printable name
  | ValueError msg => msg
  | UnicodeEncodeError obj start stop =>
      if Nat.eqb stop (S start) then
        codes "'utf-8' codec can't encode character '" ++ [92; 117]%N
        ++ hex_fixed 4 (nth start obj 0%N) [] ++ codes "' in position " ++ dec (N.of_nat start)
        ++ codes ": surrogates not allowed"
      else
        codes "'utf-8' codec can't encode characters in position " ++ dec (N.of_nat start)
        ++ codes "-" ++ dec (N.of_nat (stop - 1)) ++ codes ": surrogates not allowed"
  end.

Inductive wres (A : Type) : Type := WOk (a : A) | WRaise (x : wexn).
Arguments WOk {A} a.
Arguments WRaise {A} x.

(** *** [pathlib] *)

Record ppath : Type := { proot : pystr; pparts : list pystr }.

(** [posixpath.join(a, b)]. *)
Definition pjoin (a b : pystr) : pystr :=
  match b with
  | 47%N :: _ => b
  | _ => match a with
         | [] => b
         | _ => if N.eqb (last a 0%N) 47 then a ++ b else a ++ 47%N :: b
         end
  end.

(** [str.split("/")]. *)
Fixpoint split_slash (cur : pystr) (s : pystr) : list pystr :=
  match s with
  | [] => [rev cur]
  | c :: r => if N.eqb c 47 then rev cur :: split_slash [] r else split_slash (c :: cur) r
  end.

(** [PurePath._parse_path] with [posixpath.splitroot]: exactly two
    leading slashes are kept as the root, the pieces [""] and ["."] are
    dropped. *)
Definition parse (s : pystr) : ppath :=
  let '(root, rel) :=
    match s with
    | 47%N :: 47%N :: 47%N :: _ => ([47%N], tl s)
    | 47%N :: 47%N :: r => ([47; 47]%N, r)
    | 47%N :: r => ([47%N], r)
    | _ => ([], s)
    end in
  {| proot := root;
     pparts := filter (fun x => negb (codes_eqb x []) && negb (codes_eqb x [46%N]))
                      (split_slash [] rel) |}.

(** [sep.join(parts)]. *)
Fixpoint join_slash (l : list pystr) : pystr :=
  match l with
  | [] => []
  | [x] => x
  | x :: r => x ++ 47%N :: join_slash r
  end.

(** [str(p)]. *)
Definition str (p : ppath) : pystr :=
  match proot p ++ join_slash (pparts p) with
  | [] => [46%N]
  | s => s
  end.

(** [p.parent]. *)
Definition parent (p : ppath) : ppath :=
  match pparts p with
  | [] => p
  | _ => {| proot := proot p; pparts := removelast (pparts p) |}
  end.

(** *** The file system *)

Inductive node : Type := Dir | File (data : bytes).

(** The entries other than the root, keyed by their absolute list of
    components. *)
Definition fs : Type := list (list bytes * node).

Fixpoint key_eqb (a b : list bytes) : bool :=
  match a, b with
  | [], [] => true
  | x :: a', y :: b' => codes_eqb x y && key_eqb a' b'
  | _, _ => false
  end.

Fixpoint fs_find (k : list bytes) (f : fs) : option node :=
  match f with
  | [] => None
  | (k', n) :: f' => if key_eqb k k' then Some n else fs_find k f'
  end.

Definition lookup (k : list bytes) (f : fs) : option node :=
  match k with [] => Some Dir | _ => fs_find k f end.

Fixpoint fs_set (k : list bytes) (n : node) (f : fs) : fs :=
  match f with
  | [] => [(k, n)]
  | (k', n') :: f' => if key_eqb k k' then (k', n) :: f' else (k', n') :: fs_set k n f'
  end.

(** The components of a path: the pieces between slashes, empty pieces
    dropped. *)
Fixpoint split_comps (cur : bytes) (p : bytes) : list bytes :=
  match p with
  | [] => match cur with [] => [] | _ => [rev cur] end
  | c :: r =>
      if N.eqb c 47 then match cur with [] => split_comps [] r | _ => rev cur :: split_comps [] r end
      else split_comps (c :: cur) r
  end.

Definition is_dot (c : bytes) : bool := codes_eqb c [46%N].
Definition is_dotdot (c : bytes) : bool := codes_eqb c [46; 46]%N.

Inductive kres (A : Type) : Type := KOk (a : A) | KErr (e : oserr).
Arguments KOk {A} a.
Arguments KErr {A} e.

Section Kernel.
(** The working directory, an existing directory. *)
Variable cwd : list bytes.

(** Path resolution: every component but the last must be a directory. *)
Fixpoint walk (f : fs) (cur : list bytes) (cs : list bytes) : kres (list bytes) :=
  match cs with
  | [] => KOk cur
  | c :: cs' =>
      if is_dot c then walk f cur cs'
      else if is_dotdot c then walk f (removelast cur) cs'
      else match lookup (cur ++ [c]) f with
           | Some Dir => walk f (cur ++ [c]) cs'
           | Some (File _) => KErr ENOTDIR
           | None => KErr ENOENT
           end
  end.

(** The directory holding the last component, and that component
    ([None] for a root). *)
Definition resolve_parent (f : fs) (p : bytes) : kres (list bytes * option bytes) :=
  match p with
  | [] => KErr ENOENT
  | c :: _ =>
      let start := if N.eqb c 47 then [] else cwd in
      match rev (split_comps [] p) with
      | [] => KOk (start, None)
      | last :: rinit =>
          match walk f start (rev rinit) with
          | KOk cur => KOk (cur, Some last)
          | KErr e => KErr e
          end
      end
  end.

(** [mkdir(2)]. *)
Definition k_mkdir (f : fs) (p : bytes) : kres fs :=
  match resolve_parent f p with
  | KErr e => KErr e
  | KOk (_, None) => KErr EEXIST
  | KOk (cur, Some last) =>
      if is_dot last || is_dotdot last then KErr EEXIST
      else match lookup (cur ++ [last]) f with
           | Some _ => KErr EEXIST
           | None => KOk (fs_set (cur ++ [last]) Dir f)
           end
  end.

(** [stat(2)]: the node a path names. *)
Definition k_stat (f : fs) (p : bytes) : kres node :=
  match resolve_parent f p with
  | KErr e => KErr e
  | KOk (_, None) => KOk Dir
  | KOk (cur, Some last) =>
      if is_dot last || is_dotdot last then KOk Dir
      else match lookup (cur ++ [last]) f with
           | Some n => KOk n
           | None => KErr ENOENT
           end
  end.

(** [open(2)] with [O_WRONLY|O_CREAT|O_TRUNC]: the entry to write. *)
Definition k_open_write (f : fs) (p : bytes) : kres (list bytes) :=
  match resolve_parent f p with
  | KErr e => KErr e
  | KOk (_, None) => KErr EISDIR
  | KOk (cur, Some last) =>
      if is_dot last || is_dotdot last then KErr EISDIR
      else match lookup (cur ++ [last]) f with
           | Some Dir => KErr EISDIR
           | _ => KOk (cur ++ [last])
           end
  end.

(** Opening for reading and reading the whole file ([Path.read_bytes]). *)
Definition k_read (f : fs) (p : bytes) : kres bytes :=
  match resolve_parent f p with
  | KErr e => KErr e
  | KOk (_, None) => KErr EISDIR
  | KOk (cur, Some last) =>
      if is_dot last || is_dotdot last then KErr EISDIR
      else match lookup (cur ++ [last]) f with
           | Some (File d) => KOk d
           | Some Dir => KErr EISDIR
           | None => KErr ENOENT
           end
  end.

(** *** The [os] functions on a [str] path *)

(** [PyUnicode_FSConverter]. *)
Definition fs_path (p : pystr) : wres bytes :=
  match utf8_encode SurrogateEscape 0 p with
  | inr (a, z) => WRaise (UnicodeEncodeError p a z)
  | inl b => if existsb (N.eqb 0) b then WRaise (ValueError (codes "embedded null byte")) else WOk b
  end.

Definition os_mkdir (p : pystr) (f : fs) : wres fs :=
  match fs_path p with
  | WRaise x => WRaise x
  | WOk b => match k_mkdir f b with KOk f' => WOk f' | KErr e => WRaise (OSError e p) end
  end.

(** [Path.is_dir]: [False] on [OSError] and [ValueError]. *)
Definition is_dir (p : pystr) (f : fs) : bool :=
  match fs_path p with
  | WRaise _ => false
  | WOk b => match k_stat f b with KOk Dir => true | _ => false end
  end.

Definition read_bytes (p : pystr) (f : fs) : wres bytes :=
  match fs_path p with
  | WRaise x => WRaise x
  | WOk b => match k_read f b with KOk d => WOk d | KErr e => WRaise (OSError e p) end
  end.

(** *** [Path.mkdir] and [Path.write_text] *)

(** [p.mkdir(parents=False, exist_ok=True)]. *)
Definition mkdir_once (p : ppath) (f : fs) : wres unit * fs :=
  match os_mkdir (str p) f with
  | WOk f' => (WOk tt, f')
  | WRaise (OSError ENOENT n) => (WRaise (OSError ENOENT n), f)
  | WRaise (OSError e n) => if is_dir (str p) f then (WOk tt, f) else (WRaise (OSError e n), f)
  | WRaise x => (WRaise x, f)
  end.

(** [Path(root, *reversed(rparts)).mkdir(parents=True, exist_ok=True)]:
    on [FileNotFoundError] it creates the parent the same way and retries
    once with [parents=False]; on another [OSError] it succeeds if the
    path is a directory. *)
Fixpoint mkdir_parents (root : pystr) (rparts : list pystr) (f : fs) : wres unit * fs :=
  let p := {| proot := root; pparts := rev rparts |} in
  match os_mkdir (str p) f with
  | WOk f' => (WOk tt, f')
  | WRaise (OSError ENOENT n) =>
      if codes_eqb (str (parent p)) (str p) then (WRaise (OSError ENOENT n), f)
      else match rparts with
           | [] => (WRaise (OSError ENOENT n), f)
           | _ :: rp =>
               match mkdir_parents root rp f with
               | (WOk _, f1) => mkdir_once p f1
               | (WRaise x, f1) => (WRaise x, f1)
               end
           end
  | WRaise (OSError e n) => if is_dir (str p) f then (WOk tt, f) else (WRaise (OSError e n), f)
  | WRaise x => (WRaise x, f)
  end.

(** [p.write_text(content, encoding="utf-8")]: the file is opened (and
    truncated) before the text is encoded. *)
Definition write_text (p : ppath) (content : pystr) (f : fs) : wres unit * fs :=
  match fs_path (str p) with
  | WRaise x => (WRaise x, f)
  | WOk b =>
      match k_open_write f b with
      | KErr e => (WRaise (OSError e (str p)), f)
      | KOk key =>
          let f1 := fs_set key (File []) f in
          match utf8_encode Strict 0 content with
          | inr (a, z) => (WRaise (UnicodeEncodeError content a z), f1)
          | inl data => (WOk tt, fs_set key (File data) f1)
          end
      end
  end.

End Kernel.

Definition OUTPUT_DIR : pystr := codes "output".

(** [OUTPUT_DIR / project_slug / path]. *)
Definition file_path (project_slug path : pystr) : ppath :=
  parse (pjoin (pjoin OUTPUT_DIR project_slug) path).

(** [FileWriterTool._run]: the message it returns and the file system
    after it. *)
Definition run (printable : N -> bool) (cwd : list bytes) (project_slug path content : pystr)
    (f : fs) : pystr * fs :=
  let fp := file_path project_slug path in
  let par := parent fp in
  match mkdir_parents cwd (proot par) (rev (pparts par)) f with
  | (WRaise x, f1) => (codes "ERROR: " ++ exn_str printable x, f1)
  | (WOk _, f1) =>
      match write_text cwd fp content f1 with
      | (WOk _, f2) =>
          (codes "OK: wrote " ++ str fp ++ codes " (" ++ dec (N.of_nat (length content))
           ++ codes " chars)", f2)
      | (WRaise x, f2) => (codes "ERROR: " ++ exn_str printable x, f2)
      end
  end.

(** The entries of [f] are all in [f'] with the same node, and the new
    entries are directories. *)
Definition grows (f f' : fs) : Prop :=
  (forall k n, lookup k f = Some n -> lookup k f' = Some n) /\
  (forall k, lookup k f = None -> lookup k f' = None \/ lookup k f' = Some Dir).

(** The directories of [f] are directories of [f']. *)
Definition dirs_kept (f f' : fs) : Prop :=
  forall k, lookup k f = Some Dir -> lookup k f' = Some Dir.

End FileWriter.

(** ** Concrete inputs used below *)

(** The double quote. *)
Definition dq : string := String "034"%char EmptyString.

(** [n] opening square brackets. *)
Fixpoint brackets (n : nat) : string :=
  match n with
  | O => EmptyString
  | S n' => String "["%char (brackets n')
  end.

(** ** Scenarios and predicates for the claims below *)
Module Scenarios.
Import Json Pipeline Recover.

(** A JSON string literal. *)
Definition jstr (t : string) : string := dq ++ t ++ dq.

(** An Evaluation entry with the given rank text. *)
Definition idea_text (rank title : string) : string :=
  "{" ++ jstr "rank" ++ ": " ++ rank ++ ", " ++ jstr "trend_title" ++ ": " ++ jstr title ++ ", "
  ++ jstr "one_liner" ++ ": " ++ jstr "pitch" ++ ", " ++ jstr "feasibility_score" ++ ": 8, "
  ++ jstr "target_user" ++ ": " ++ jstr "devs" ++ "}".

(** A Critic artifact: prose, then a fenced [{"top3": [...]}] object. *)
Definition nl : string := String (ascii_of_nat 10) EmptyString.

Definition critic_text (entries : list string) : string :=
  "Ranking below." ++ nl ++ "```json" ++ nl
  ++ "{" ++ jstr "top3" ++ ": [" ++ String.concat ", " entries ++ "]}" ++ nl ++ "```".

Definition three_ideas : string :=
  critic_text [idea_text "1" "Alpha"; idea_text "2" "Beta"; idea_text "3" "Gamma"].

(** An environment where every stage succeeds; the artifact of the Critic
    is [critic], and [fe] and [sl] are the interpreter's float comparison
    and [slugify]. *)
Definition env_of (critic : option string) (fe : string -> Z -> bool) (sl : json -> string) : env :=
  {| api_key_set := true; config_exn := None; crew_exn := fun _ => None;
     critic_file := critic; project_dir_exists := true; float_equals := fe;
     slugify := sl; recursion_limit := 1000; int_max_str_digits := 4300 |}.

Definition init (lines : list input_line) : state :=
  {| ledger := []; stdin := lines; trace := [] |}.

Definition rank_is (e : env) (y : json) (k : Z) : bool :=
  match getitem y "rank" with Ok r => py_eq_int e r k | Raise _ => false end.

(** [m] leaves the ledger as it is and only appends events other than a
    Builder run to the trace. *)
Definition quiet {A} (m : M A) : Prop :=
  forall s r s', m s = (r, s') ->
    ledger s' = ledger s /\
    exists new, trace s' = (trace s ++ new)%list /\ ~ In (RunCrew Builder) new.

(** The row [start_run] appends for a run without a topic. *)
Definition running_row (run : nat) : run_row :=
  {| run_id := run; run_topic := None; run_status := "running"; run_error := None;
     run_finished := false |}.

(** A run whose Critic ranks three ideas 1, 2, 3. *)
Definition reject_env : env := env_of (Some three_ideas) (fun _ _ => false) (fun _ => "alpha").

(** A line the gate rejects. *)
Definition rejected (l : input_line) : Prop :=
  exists t, l = Line t /\ choice_value (py_strip t) = None.

(** Number of entries whose rank equals [k]. *)
Definition rank_count (e : env) (ideas : list json) (k : Z) : nat :=
  length (filter (fun y => rank_is e y k) ideas).

(** The ranks of the [N] entries are exactly [1..N]. *)
Definition ranks_exact (e : env) (ideas : list json) : bool :=
  forallb (fun k => Nat.eqb (rank_count e ideas (Z.of_nat k)) 1) (seq 1 (length ideas)).

(** A Critic artifact with a single entry, of rank 2. *)
Definition gap_env : env :=
  env_of (Some (critic_text [idea_text "2" "Beta"])) (fun _ _ => false) (fun _ => "beta").

(** A Critic artifact whose ranks are the strings ["1"], ["2"], ["3"]. *)
Definition string_rank_env : env :=
  env_of (Some (critic_text [idea_text (jstr "1") "Alpha"; idea_text (jstr "2") "Beta";
                             idea_text (jstr "3") "Gamma"]))
         (fun _ _ => false) (fun _ => "alpha").

(** The value the Extractor finds in a Critic artifact ([null] if none),
    and the entries of its [top3] list. *)
Definition parsed_of (text : string) : json :=
  match parse_json 1000 4300 (py_strip text) with
  | Ok (Some v) => v
  | _ => JNull
  end.

Definition ideas_of (text : string) : list json :=
  match top3_of (parsed_of text) with JArr l => l | _ => [] end.

(** The first entry of rank [k]. *)
Definition chosen_of (text : string) (k : Z) : json :=
  match next_rank (env_of None (fun _ _ => false) (fun _ => "")) (ideas_of text) k with
  | Ok x => x | Raise _ => JNull
  end.

(** Sorted by name, as [sorted()] leaves the entries. *)
Fixpoint sorted (l : list (string * bool)) : Prop :=
  match l with
  | [] => True
  | x :: l' => (forall y, In y l' -> String.leb (fst x) (fst y) = true) /\ sorted l'
  end.

End Scenarios.

(** ** Ledger predicates *)
Module LedgerModel.
Import Json Pipeline.

(** [m] preserves the property [P] of the ledger. *)
Definition keeps {A} (P : list run_row -> Prop) (m : M A) : Prop :=
  forall s r s', m s = (r, s') -> P (ledger s) -> P (ledger s').

(** The ids of the rows are at most the number of rows, as autoincrement
    ids of a table whose rows are never deleted are. *)
Definition ids_below (l : list run_row) : Prop :=
  Forall (fun r => (run_id r <= length l)%nat) l.

(** [l] is [l0] followed by one row for [topic], whose id is the next one
    and whose status is one the code writes. *)
Definition run_appended (l0 : list run_row) (topic : option string) (l : list run_row) : Prop :=
  exists row, l = (l0 ++ [row])%list /\ run_id row = S (length l0) /\ run_topic row = topic /\
    In (run_status row) ["running"; "success"; "error"].

End LedgerModel.

(** ** Further concrete runs *)
Module ExtraScenarios.
Import Json Pipeline Scenarios.

(** A run whose Scout raises an [Exception]. *)
Definition scout_fails_env : env :=
  {| api_key_set := true; config_exn := None;
     crew_exn := fun st => match st with
                           | Scout => Some (PyError "RuntimeError" "rate limited")
                           | _ => None
                           end;
     critic_file := Some three_ideas; project_dir_exists := true;
     float_equals := fun _ _ => false; slugify := fun _ => "alpha";
     recursion_limit := 1000; int_max_str_digits := 4300 |}.

(** A Scout artifact with two trends, as [storage/trend_list.json]. *)
Definition trend_list_text : string :=
  "[{" ++ jstr "title" ++ ": " ++ jstr "Local LLMs" ++ ", " ++ jstr "why_trending" ++ ": "
  ++ jstr "cheap GPUs" ++ "}, {" ++ jstr "title" ++ ": " ++ jstr "Agents" ++ "}]".

(** The same list after prose whose first [{] opens no JSON object. *)
Definition prose_trend_text : string := "Trends {see below}: " ++ trend_list_text.

(** A chat message as crewai builds it. *)
Definition message (role text : string) : json :=
  JObj [(codes "role", JStr (codes role)); (codes "content", JStr (codes text))].

(** The conversation of [handle_max_iterations_exceeded]: it ends with an
    assistant message. *)
Definition max_iter_messages : list json :=
  [message "user" "task"; message "assistant" "thought"; message "user" "observation";
   message "assistant" "Final Answer:"].

End ExtraScenarios.

(** Inputs for the project writer: a working directory [/w] and nothing
    else on the disk, then the tree after writing [output/proj/a/b.txt], and a
    second call that fails on it. *)
Module FileWriterScenarios.
Import Json FileWriter.
Local Open Scope list_scope.

Definition no_extra_printable (c : N) : bool := false.
Definition fw_cwd : list bytes := [codes "w"].
Definition fw_fs0 : fs := [([codes "w"], Dir)].
Definition fw_fs1 : fs := snd (run no_extra_printable fw_cwd (codes "proj") (codes "a/b.txt") (codes "hi") fw_fs0).
Definition fw_fs2 : pystr * fs :=
  run no_extra_printable fw_cwd (codes "proj") (codes "a/b.txt/c") (codes "x") fw_fs1.

End FileWriterScenarios.

(** * Properties of the JSON decoder *)
Module JsonFacts.
Import Json.

Section Limits.
Variable L D : nat.

Definition limit_error (x : exn) : Prop :=
  x = recursion_error "object" \/ x = recursion_error "array" \/ x = int_digits_error.

(** A result of [scan_once] on a text of length [n] is good when the
    fuel did not run out, the unconsumed text is strictly shorter, and
    the only exceptions are the interpreter-limit ones. *)
Definition good (n : nat) (x : dres) : Prop :=
  match x with
  | DOk _ r => (String.length r < n)%nat
  | DFail => True
  | DRaise e => limit_error e
  | DNoFuel => False
  end.

Lemma good_mono : forall n m x, (n <= m)%nat -> good n x -> good m x.
Proof. intros n m [] Hle; simpl; auto; lia. Qed.

Lemma skip_ws_len : forall s, (String.length (skip_ws s) <= String.length s)%nat.
Proof. induction s as [|c s IH]; simpl; [lia|]. destruct (is_ws c); simpl; lia. Qed.

Lemma span_digits_len : forall s ds r,
  span_digits s = (ds, r) -> (String.length ds + String.length r = String.length s)%nat.
Proof.
  induction s as [|c s IH]; simpl; intros ds r H.
  - inversion H; reflexivity.
  - destruct (is_digit c).
    + destruct (span_digits s) as [ds' r'] eqn:E. inversion H; subst. simpl.
      rewrite (IH _ _ eq_refl). reflexivity.
    + inversion H; subst. reflexivity.
Qed.

Lemma strip_prefix_len : forall p s r,
  strip_prefix p s = Some r -> (String.length r + String.length p = String.length s)%nat.
Proof.
  induction p as [|a p IH]; intros [|b s] r H; simpl in H; try discriminate.
  - inversion H; subst; simpl; lia.
  - inversion H; subst; simpl; lia.
  - destruct (Ascii.eqb a b); [|discriminate]. apply IH in H. simpl; lia.
Qed.

Lemma scan_chars_len : forall n s acc cs r,
  (String.length s <= n)%nat -> scan_chars s acc = Some (cs, r) ->
  (String.length r < String.length s)%nat.
Proof.
  induction n as [|n IH]; intros s acc cs r Hn H.
  - destruct s; simpl in *; [discriminate | lia].
  - destruct s as [|c s1]; [discriminate|]. simpl in H.
    repeat match type of H with
           | context [if ?b then _ else _] => destruct b eqn:?
           | context [match ?x with _ => _ end] => destruct x eqn:?
           end;
      try discriminate;
      try (inversion H; subst; simpl; lia);
      try (apply IH in H; simpl in *; lia).
Qed.

Lemma number_sign_len : forall s sg r,
  number_sign s = (sg, r) -> (String.length r <= String.length s)%nat.
Proof.
  intros [|c s] sg r H; simpl in H; [inversion H; subst; lia|].
  destruct (is_char c 45); inversion H; subst; simpl; lia.
Qed.

Lemma number_int_len : forall s ip r,
  number_int s = Some (ip, r) -> (String.length r < String.length s)%nat.
Proof.
  intros [|c s] ip r H; simpl in H; [discriminate|].
  destruct (is_digit c && negb (is_char c 48)).
  - destruct (span_digits s) as [ds r'] eqn:E. apply span_digits_len in E.
    inversion H; subst. simpl. lia.
  - destruct (is_char c 48); inversion H; subst. simpl. lia.
Qed.

Lemma number_frac_len : forall s fr b r,
  number_frac s = (fr, b, r) -> (String.length r <= String.length s)%nat.
Proof.
  intros [|c [|d s]] fr b r H; simpl in H; try (inversion H; subst; simpl; lia).
  destruct (is_char c 46 && is_digit d).
  - destruct (span_digits s) as [ds r'] eqn:E. apply span_digits_len in E.
    inversion H; subst. simpl. lia.
  - inversion H; subst. simpl. lia.
Qed.

Lemma number_exp_len : forall s ex b r,
  number_exp s = (ex, b, r) -> (String.length r <= String.length s)%nat.
Proof.
  intros [|e s] ex b r H; simpl in H; [inversion H; subst; lia|].
  destruct (is_char e 101 || is_char e 69); [|inversion H; subst; simpl; lia].
  destruct (exp_sign s) as [sg r'] eqn:E1.
  assert (Hr' : (String.length r' <= String.length s)%nat).
  { destruct s as [|c s]; simpl in E1; [inversion E1; subst; lia|].
    destruct (is_char c 43 || is_char c 45); inversion E1; subst; simpl; lia. }
  destruct (span_digits r') as [ds r''] eqn:E2. apply span_digits_len in E2.
  destruct (String.eqb ds EmptyString); inversion H; subst; simpl; lia.
Qed.

Lemma match_number_len : forall s lit b r,
  match_number s = Some (lit, b, r) -> (String.length r < String.length s)%nat.
Proof.
  intros s lit b r H. unfold match_number in H.
  destruct (number_sign s) as [sg s1] eqn:E1. apply number_sign_len in E1.
  destruct (number_int s1) as [[ip r1]|] eqn:E2; [|discriminate].
  apply number_int_len in E2.
  destruct (number_frac r1) as [[fr isf] r2] eqn:E3. apply number_frac_len in E3.
  destruct (number_exp r2) as [[ex ise] r3] eqn:E4. apply number_exp_len in E4.
  inversion H; subst. lia.
Qed.

Lemma decode_int_good : forall lit r n, (String.length r < n)%nat ->
  good n (decode_int D lit r).
Proof.
  intros lit r n Hr. unfold decode_int.
  destruct (match lit with
            | String c r0 => if is_char c 45 then (true, r0) else (false, lit)
            | EmptyString => (false, lit)
            end) as [neg ds].
  destruct (negb (Nat.eqb D 0) && (D <? String.length ds)%nat); simpl; auto.
  unfold limit_error; auto.
Qed.

Lemma scan_scalar_good : forall s, good (String.length s) (scan_scalar D s).
Proof.
  intros s. unfold scan_scalar.
  repeat match goal with
         | |- context [strip_prefix ?p s] =>
             let E := fresh "E" in
             destruct (strip_prefix p s) eqn:E;
             [apply strip_prefix_len in E; simpl in *; lia|]
         end.
  destruct (match_number s) as [[[lit []] r]|] eqn:Em; simpl; auto;
    apply match_number_len in Em; auto using decode_int_good.
Qed.

Lemma recursion_error_limit : forall w, w = "object" \/ w = "array" ->
  limit_error (recursion_error w).
Proof. intros w [-> | ->]; unfold limit_error; auto. Qed.

(** Enough fuel: [scan_once] needs [3n+1] on a text of length [n], the
    container parsers [3n+3], the element and member loops [3n+2]. *)
Lemma decoder_good : forall F,
  (forall d s, (3 * String.length s + 1 <= F)%nat ->
     good (String.length s) (scan_once L D F d s)) /\
  (forall d s, (3 * String.length s + 3 <= F)%nat ->
     good (String.length s) (parse_array L D F d s)) /\
  (forall d s acc, (3 * String.length s + 2 <= F)%nat ->
     good (String.length s) (array_items L D F d s acc)) /\
  (forall d s, (3 * String.length s + 3 <= F)%nat ->
     good (String.length s) (parse_object L D F d s)) /\
  (forall d s acc, (3 * String.length s + 2 <= F)%nat ->
     good (String.length s) (object_items L D F d s acc)).
Proof.
  induction F as [|f IH].
  { repeat split; intros; lia. }
  destruct IH as (IHs & IHpa & IHai & IHpo & IHoi).
  repeat split.
  - (* scan_once *)
    intros d [|c r] Hf; simpl; auto.
    destruct (is_char c 34).
    { destruct (scan_chars r []) as [[cs r']|] eqn:E; simpl; auto.
      apply (scan_chars_len (String.length r)) in E; auto. }
    destruct (is_char c 123).
    { destruct (L <=? d)%nat; [apply recursion_error_limit; auto|].
      apply (good_mono (String.length r)); [lia|]. apply IHpo. simpl in Hf; lia. }
    destruct (is_char c 91).
    { destruct (L <=? d)%nat; [apply recursion_error_limit; auto|].
      apply (good_mono (String.length r)); [lia|]. apply IHpa. simpl in Hf; lia. }
    apply (scan_scalar_good (String c r)).
  - (* parse_array *)
    intros d s Hf. simpl. pose proof (skip_ws_len s) as Hw.
    destruct (skip_ws s) as [|c r] eqn:E.
    + apply (good_mono (String.length EmptyString)); [lia|]. apply IHai. simpl in *; lia.
    + destruct (is_char c 93); [simpl in *; lia|].
      apply (good_mono (String.length (String c r))); [lia|]. apply IHai. lia.
  - (* array_items *)
    intros d s acc Hf. simpl.
    specialize (IHs d s ltac:(lia)).
    destruct (scan_once L D f d s) as [v r| | x |] eqn:E; simpl in *; auto.
    pose proof (skip_ws_len r) as Hw1.
    destruct (skip_ws r) as [|c r2] eqn:E1; simpl; auto.
    destruct (is_char c 93); [simpl in *; lia|].
    destruct (is_char c 44); simpl; auto.
    pose proof (skip_ws_len r2) as Hw2.
    destruct (skip_ws r2) as [|c' r3] eqn:E2.
    + apply (good_mono (String.length EmptyString)); [simpl in *; lia|]. apply IHai. simpl in *; lia.
    + destruct (is_char c' 93); simpl; auto.
      apply (good_mono (String.length (String c' r3))); [simpl in *; lia|]. apply IHai.
      simpl in *; lia.
  - (* parse_object *)
    intros d s Hf. simpl. pose proof (skip_ws_len s) as Hw.
    destruct (skip_ws s) as [|c r] eqn:E.
    + apply (good_mono (String.length EmptyString)); [lia|]. apply IHoi. simpl in *; lia.
    + destruct (is_char c 125); [simpl in *; lia|].
      apply (good_mono (String.length (String c r))); [lia|]. apply IHoi. lia.
  - (* object_items *)
    intros d [|q r] acc Hf; simpl; auto.
    destruct (is_char q 34); simpl; auto.
    destruct (scan_chars r []) as [[k r1]|] eqn:Ek; simpl; auto.
    apply (scan_chars_len (String.length r)) in Ek; auto.
    pose proof (skip_ws_len r1) as Hw1.
    destruct (skip_ws r1) as [|colon r2] eqn:E1; simpl; auto.
    destruct (is_char colon 58); simpl; auto.
    pose proof (skip_ws_len r2) as Hw2.
    specialize (IHs d (skip_ws r2) ltac:(simpl in *; lia)).
    destruct (scan_once L D f d (skip_ws r2)) as [v r3| | x |] eqn:E; simpl in *; auto;
      try (eapply good_mono; [|exact IHs]; simpl in *; lia).
    pose proof (skip_ws_len r3) as Hw3.
    destruct (skip_ws r3) as [|c r4] eqn:E3; simpl; auto.
    destruct (is_char c 125); [simpl in *; lia|].
    destruct (is_char c 44); simpl; auto.
    pose proof (skip_ws_len r4) as Hw4.
    destruct (skip_ws r4) as [|c' r5] eqn:E4.
    + apply (good_mono (String.length EmptyString)); [simpl in *; lia|]. apply IHoi. simpl in *; lia.
    + destruct (is_char c' 125); simpl; auto.
      apply (good_mono (String.length (String c' r5))); [simpl in *; lia|]. apply IHoi.
      simpl in *; lia.
Qed.

(** [raw_decode] never runs out of fuel, consumes at least one character
    when it succeeds, and raises only the interpreter-limit errors. *)
Lemma raw_decode_good : forall s, good (String.length s) (raw_decode L D s).
Proof. intros s. apply (proj1 (decoder_good _)). lia. Qed.

Lemma raw_decode_fuel : forall s, raw_decode L D s <> DNoFuel.
Proof. intros s E. pose proof (raw_decode_good s) as G. rewrite E in G. exact G. Qed.

End Limits.

End JsonFacts.

(** * Claims about the Free-Text JSON Extractor *)
Section ExtractorClaims.
Import Json JsonFacts.

Example parse_json_fenced :
  parse_json 1000 4300 ("Here it is:" ++ String (ascii_of_nat 10) "```json"
                        ++ String (ascii_of_nat 10) "[1, 2]" ++ String (ascii_of_nat 10) "```")
  = Ok (Some (JArr [JInt 1; JInt 2])).
Proof. vm_compute. reflexivity. Qed.

Example parse_json_trailing_garbage :
  parse_json 1000 4300 "{} }} garbage" = Ok (Some (JObj [])).
Proof. vm_compute. reflexivity. Qed.

(** C1 (code bug).  [_parse_json] tries only the first [{] and then the
    first [[] of the text: on [{x} {}] the first attempt fails and the
    valid object [{}] at position 4 is never tried, so the result is
    [None]; on [[1] {}] the object at position 4 is returned although the
    array at position 0 parses and starts earlier. *)
Theorem C1_parse_json_only_first_candidates :
  parse_json 1000 4300 "{x} {}" = Ok None /\
  raw_decode 1000 4300 (str_drop 4 "{x} {}") = DOk (JObj []) EmptyString /\
  parse_json 1000 4300 "[1] {}" = Ok (Some (JObj [])) /\
  raw_decode 1000 4300 "[1] {}" = DOk (JArr [JInt 1]) " {}".
Proof. repeat split; vm_compute; reflexivity. Qed.

(** C6 (code bug).  When the attempts at the first [{] and at the first
    [[] of the text both fail, [_parse_json] returns [None], whatever
    follows: on [{x} [y] [1]] the object at position 0 and the array at
    position 4 fail, and the array [[1]] at position 8, which parses, is
    never tried. *)
Theorem C6_parse_json_misses_later_array :
  (forall L D s i j,
     str_find "{"%char s = Some i -> raw_decode L D (str_drop i s) = DFail ->
     str_find "["%char s = Some j -> raw_decode L D (str_drop j s) = DFail ->
     parse_json L D s = Ok None) /\
  raw_decode 1000 4300 "{x} [y] [1]" = DFail /\
  raw_decode 1000 4300 (str_drop 4 "{x} [y] [1]") = DFail /\
  raw_decode 1000 4300 (str_drop 8 "{x} [y] [1]") = DOk (JArr [JInt 1]) EmptyString /\
  parse_json 1000 4300 "{x} [y] [1]" = Ok None.
Proof.
  split.
  - intros L D s i j Hi Ei Hj Ej. unfold parse_json, try_start.
    rewrite Hi, Ei, Hj, Ej. reflexivity.
  - repeat split; vm_compute; reflexivity.
Qed.

Lemma skip_ws_brackets : forall n, skip_ws (brackets n) = brackets n.
Proof. intros [|n]; reflexivity. Qed.

(** A run of opening brackets never decodes to a value. *)
Lemma brackets_no_value : forall L D F,
  (forall d n v r, scan_once L D F d (brackets n) <> DOk v r) /\
  (forall d n v r, parse_array L D F d (brackets n) <> DOk v r) /\
  (forall d n acc v r, array_items L D F d (brackets n) acc <> DOk v r).
Proof.
  intros L D F. induction F as [|f (IHs & IHpa & IHai)].
  { repeat split; intros; discriminate. }
  repeat split.
  - intros d [|n] v r; simpl; [discriminate|].
    destruct (L <=? d)%nat; [discriminate|]. apply IHpa.
  - intros d n v r. simpl. rewrite skip_ws_brackets.
    destruct n as [|n]; simpl; [apply (IHai d 0) | apply (IHai d (S n))].
  - intros d n acc v r. simpl.
    specialize (IHs d n).
    destruct (scan_once L D f d (brackets n)) eqn:E; try discriminate.
    exfalso. eapply IHs. reflexivity.
Qed.

Lemma str_drop_brackets : forall i n, str_drop i (brackets n) = brackets (n - i).
Proof.
  induction i as [|i IH]; intros [|n]; simpl; auto.
Qed.

(** C9 (counterexample).  The claim says [_parse_json] returns [None] on
    every text without a decodable JSON value.  A run of 1001 opening
    brackets has none, under any interpreter limits, yet with CPython's
    default recursion limit 1000 the decoder raises [RecursionError],
    which escapes [except JSONDecodeError]. *)
Lemma C9_counterexample :
  ~ (forall s, (forall L D i v r, raw_decode L D (str_drop i s) <> DOk v r) ->
               parse_json 1000 4300 s = Ok None).
Proof.
  intros H.
  assert (Hno : forall L D i v r, raw_decode L D (str_drop i (brackets 1001)) <> DOk v r).
  { intros L D i v r. rewrite str_drop_brackets. unfold raw_decode.
    apply (proj1 (brackets_no_value L D _)). }
  specialize (H _ Hno). vm_compute in H. discriminate.
Qed.

Lemma array_items_arr : forall L D f d s acc v r,
  array_items L D f d s acc = DOk v r -> exists l, v = JArr l.
Proof.
  intros L D f. induction f as [|f IH]; intros d s acc v r H; [discriminate|].
  simpl in H.
  destruct (scan_once L D f d s) as [v0 r0| | |]; try discriminate.
  destruct (skip_ws r0) as [|c r2]; [discriminate|].
  destruct (is_char c 93); [injection H as <- _; eauto|].
  destruct (is_char c 44); [|discriminate].
  destruct (skip_ws r2) as [|c' r3]; [eapply IH; exact H|].
  destruct (is_char c' 93); [discriminate | eapply IH; exact H].
Qed.

Lemma object_items_obj : forall L D f d s acc v r,
  object_items L D f d s acc = DOk v r -> exists m, v = JObj m.
Proof.
  intros L D f. induction f as [|f IH]; intros d s acc v r H; [discriminate|].
  simpl in H.
  destruct s as [|q r0]; [discriminate|].
  destruct (is_char q 34); [|discriminate].
  destruct (scan_chars r0 []) as [[k r1]|]; [|discriminate].
  destruct (skip_ws r1) as [|colon r2]; [discriminate|].
  destruct (is_char colon 58); [|discriminate].
  destruct (scan_once L D f d (skip_ws r2)) as [v0 r3| | |]; try discriminate.
  destruct (skip_ws r3) as [|c r4]; [discriminate|].
  destruct (is_char c 125); [injection H as <- _; eauto|].
  destruct (is_char c 44); [|discriminate].
  destruct (skip_ws r4) as [|c' r5]; [eapply IH; exact H|].
  destruct (is_char c' 125); [discriminate | eapply IH; exact H].
Qed.

Lemma parse_object_obj : forall L D f d s v r,
  parse_object L D f d s = DOk v r -> exists m, v = JObj m.
Proof.
  intros L D f d s v r H. destruct f as [|f]; [discriminate|]. simpl in H.
  destruct (skip_ws s) as [|c r0]; [exact (object_items_obj _ _ _ _ _ _ _ _ H)|].
  destruct (is_char c 125); [injection H as <- _; eauto | exact (object_items_obj _ _ _ _ _ _ _ _ H)].
Qed.

Lemma parse_array_arr : forall L D f d s v r,
  parse_array L D f d s = DOk v r -> exists l, v = JArr l.
Proof.
  intros L D f d s v r H. destruct f as [|f]; [discriminate|]. simpl in H.
  destruct (skip_ws s) as [|c r0]; [exact (array_items_arr _ _ _ _ _ _ _ _ H)|].
  destruct (is_char c 93); [injection H as <- _; eauto | exact (array_items_arr _ _ _ _ _ _ _ _ H)].
Qed.

(** A decode that starts at a bracket yields an object or an array. *)
Lemma raw_decode_open : forall L D c rest v r,
  (c = "{"%char \/ c = "["%char) ->
  raw_decode L D (String c rest) = DOk v r -> is_container v = true.
Proof.
  intros L D c rest v r Hc H. unfold raw_decode in H.
  remember (3 * String.length (String c rest) + 1)%nat as n eqn:En.
  destruct n as [|f]; [lia|].
  destruct Hc as [-> | ->]; simpl in H; (destruct (L <=? 0)%nat; [discriminate|]).
  - destruct (parse_object_obj _ _ _ _ _ _ _ H) as [m ->]; reflexivity.
  - destruct (parse_array_arr _ _ _ _ _ _ _ H) as [l ->]; reflexivity.
Qed.

Lemma str_find_drop : forall c s i, str_find c s = Some i -> exists rest, str_drop i s = String c rest.
Proof.
  intros c s. induction s as [|c' r IH]; intros i H; [discriminate|].
  cbn in H. destruct (Ascii.eqb_spec c c') as [->|_].
  - injection H as <-. eexists. reflexivity.
  - destruct (str_find c r) as [n|]; [|discriminate]. injection H as <-. cbn. apply IH. reflexivity.
Qed.

Lemma find_open_container : forall L D s c i v r,
  (c = "{"%char \/ c = "["%char) -> str_find c s = Some i ->
  raw_decode L D (str_drop i s) = DOk v r -> is_container v = true.
Proof.
  intros L D s c i v r Hc Hf H. destruct (str_find_drop _ _ _ Hf) as [rest E].
  rewrite E in H. exact (raw_decode_open _ _ _ _ _ _ Hc H).
Qed.

(** C9 (amended).  When no decode attempt at any position of the text
    succeeds, [_parse_json] returns [None] or raises one of the
    interpreter-limit errors ([RecursionError] for nesting beyond the
    recursion limit, [ValueError] for an integer literal beyond the digit
    limit); it raises nothing else, in particular no [JSONDecodeError].
    Decodes of other values do not matter: the text may hold scalars, as
    the [1] of [{rank: 1}], as long as no decode yields an object or an
    array. *)
Theorem C9_no_value_none_or_limit_error : forall L D s,
  (forall i v r, raw_decode L D (str_drop i s) = DOk v r -> is_container v = false) ->
  parse_json L D s = Ok None \/ (exists x, parse_json L D s = Raise x /\ limit_error x).
Proof.
  intros L D s Hno. unfold parse_json, try_start.
  destruct (str_find "{"%char s) as [i|] eqn:Fi.
  - pose proof (raw_decode_good L D (str_drop i s)) as G.
    destruct (raw_decode L D (str_drop i s)) as [v r| |x|] eqn:E.
    + exfalso. pose proof (Hno i v r E) as N.
      rewrite (find_open_container L D s "{"%char i v r (or_introl eq_refl) Fi E) in N.
      discriminate.
    + destruct (str_find "["%char s) as [j|] eqn:Fj; [|left; reflexivity].
      pose proof (raw_decode_good L D (str_drop j s)) as G'.
      destruct (raw_decode L D (str_drop j s)) as [v r| |x|] eqn:E'.
      * exfalso. pose proof (Hno j v r E') as N.
        rewrite (find_open_container L D s "["%char j v r (or_intror eq_refl) Fj E') in N.
        discriminate.
      * left; reflexivity.
      * right. exists x. split; [reflexivity | exact G'].
      * left; reflexivity.
    + right. exists x. split; [reflexivity | exact G].
    + destruct G.
  - destruct (str_find "["%char s) as [j|] eqn:Fj; [|left; reflexivity].
    pose proof (raw_decode_good L D (str_drop j s)) as G'.
    destruct (raw_decode L D (str_drop j s)) as [v r| |x|] eqn:E'.
    + exfalso. pose proof (Hno j v r E') as N.
      rewrite (find_open_container L D s "["%char j v r (or_intror eq_refl) Fj E') in N.
      discriminate.
    + left; reflexivity.
    + right. exists x. split; [reflexivity | exact G'].
    + left; reflexivity.
Qed.

Lemma str_drop_beyond : forall i s, (String.length s <= i)%nat -> str_drop i s = EmptyString.
Proof.
  induction i as [|i IH]; intros [|c s] H; simpl in *; auto; try lia. apply IH. lia.
Qed.

Lemma C9_no_value_none_or_limit_error_witness :
  (forall i v r, raw_decode 1000 4300 (str_drop i "{rank: 1}") = DOk v r -> is_container v = false) /\
  (parse_json 1000 4300 "{rank: 1}" = Ok None \/
   (exists x, parse_json 1000 4300 "{rank: 1}" = Raise x /\ limit_error x)).
Proof.
  assert (H : forall i v r, raw_decode 1000 4300 (str_drop i "{rank: 1}") = DOk v r ->
                            is_container v = false).
  { intros i v r.
    do 9 (destruct i as [|i];
          [vm_compute; intros E; first [discriminate | injection E as <- _; reflexivity]|]).
    rewrite str_drop_beyond by (simpl; lia). vm_compute. discriminate. }
  split; [exact H | apply (C9_no_value_none_or_limit_error 1000 4300); exact H].
Defined.

End ExtractorClaims.

(** * Claims about the pipeline orchestrator *)
Module PipelineFacts.
Import Json Pipeline Scenarios.

(** ** Computations that neither touch the ledger nor run the Builder *)

Lemma quiet_ret : forall A (a : A), quiet (ret a).
Proof.
  intros A a s r s' H. inversion H; subst. split; [reflexivity|].
  exists []. rewrite app_nil_r. split; auto.
Qed.

Lemma quiet_raise : forall A x, quiet (@raise A x).
Proof.
  intros A x s r s' H. inversion H; subst. split; [reflexivity|].
  exists []. rewrite app_nil_r. split; auto.
Qed.

Lemma quiet_lift : forall A (v : res A), quiet (lift v).
Proof.
  intros A v s r s' H. inversion H; subst. split; [reflexivity|].
  exists []. rewrite app_nil_r. split; auto.
Qed.

Lemma quiet_emit : forall ev, ev <> RunCrew Builder -> quiet (emit ev).
Proof.
  intros ev Hev s r s' H. inversion H; subst. simpl. split; [reflexivity|].
  exists [ev]. split; [reflexivity|]. simpl. intros [E|[]]. auto.
Qed.

Lemma quiet_bind : forall A B (m : M A) (k : A -> M B),
  quiet m -> (forall a, quiet (k a)) -> quiet (bind m k).
Proof.
  intros A B m k Hm Hk s r s' H. unfold bind in H.
  destruct (m s) as [[a|x] s1] eqn:E.
  - destruct (Hm _ _ _ E) as [L1 (n1 & T1 & N1)].
    destruct (Hk a _ _ _ H) as [L2 (n2 & T2 & N2)].
    split; [congruence|]. exists (n1 ++ n2)%list. rewrite T2, T1, app_assoc.
    split; [reflexivity|]. rewrite in_app_iff. tauto.
  - inversion H; subst. exact (Hm _ _ _ E).
Qed.

Lemma quiet_stdin : forall A (f : list input_line -> res A * list input_line),
  quiet (fun s => let (r, rest) := f (stdin s) in (r, set_stdin s rest)).
Proof.
  intros A f s r s' H. destruct (f (stdin s)) as [r0 rest]. inversion H; subst.
  simpl. split; [reflexivity|]. exists []. rewrite app_nil_r. split; auto.
Qed.

Lemma quiet_run_crew : forall e st, st <> Builder -> quiet (run_crew e st).
Proof.
  intros e st Hst. unfold run_crew. apply quiet_bind.
  - apply quiet_emit. congruence.
  - intros _. destruct (crew_exn e st); [apply quiet_raise | apply quiet_ret].
Qed.

Lemma quiet_stage_critic : forall e, quiet (stage_critic e).
Proof.
  intros e. unfold stage_critic. apply quiet_bind; [apply quiet_run_crew; discriminate|].
  intros _. apply quiet_bind.
  - unfold parse_json_file. destruct (critic_file e) as [t|];
      [destruct (String.eqb (py_strip t) EmptyString); [apply quiet_ret | apply quiet_lift]
      | apply quiet_raise].
  - intros [v|]; [|apply quiet_raise].
    destruct (truthy e v); [|apply quiet_raise].
    destruct (truthy e (top3_of v)); [apply quiet_ret | apply quiet_raise].
Qed.

Lemma quiet_prompt_idea_choice : forall e top3, quiet (prompt_idea_choice e top3).
Proof.
  intros e top3. unfold prompt_idea_choice.
  apply quiet_bind; [apply quiet_lift|]. intros ideas.
  apply quiet_bind; [apply quiet_lift|]. intros _.
  apply quiet_bind; [apply (quiet_stdin _ (choice_loop e ideas))|]. intros chosen.
  apply quiet_bind; [apply quiet_emit; discriminate|]. intros _. apply quiet_ret.
Qed.

Lemma quiet_until_approval : forall e, quiet (until_approval e).
Proof.
  intros e. unfold until_approval, stage_scout, stage_architect.
  apply quiet_bind; [apply quiet_run_crew; discriminate|]. intros _.
  apply quiet_bind; [apply quiet_stage_critic|]. intros top3.
  apply quiet_bind; [apply quiet_prompt_idea_choice|]. intros chosen.
  apply quiet_bind; [apply quiet_run_crew; discriminate|]. intros _. apply quiet_ret.
Qed.

Lemma quiet_prompt_design_approval : quiet prompt_design_approval.
Proof. apply (quiet_stdin _ approval_loop). Qed.

(** ** The ledger row of the run *)

Lemma find_run_app_last : forall n l row,
  run_id row = n -> find_run n (l ++ [row])%list <> None.
Proof.
  intros n l row Hr. induction l as [|r l IH]; cbn.
  - rewrite Hr, Nat.eqb_refl. discriminate.
  - destruct (Nat.eqb (run_id r) n); [discriminate | exact IH].
Qed.

Lemma start_phase_row : forall e topic s0 run s1,
  start_phase e topic s0 = (Ok run, s1) ->
  trace s1 = trace s0 /\ find_run run (ledger s1) <> None.
Proof.
  intros e topic s0 run s1 H. unfold start_phase, check_api_key, load_config, bind in H.
  destruct (api_key_set e); [|discriminate]. cbn in H.
  destruct (config_exn e); [discriminate|]. cbn in H.
  inversion H; subst. cbn. split; [reflexivity|].
  apply find_run_app_last. reflexivity.
Qed.

Lemma find_run_finish : forall run status err l,
  find_run run l <> None ->
  exists row, find_run run (map (finish_row run status err) l) = Some row /\
             run_status row = status /\ run_error row = err /\ run_finished row = true.
Proof.
  intros run status err l. induction l as [|r l IH]; cbn; intros H; [congruence|].
  destruct (Nat.eqb (run_id r) run) eqn:E.
  - unfold finish_row at 1 2. rewrite E. cbn. rewrite E. eexists; repeat split; reflexivity.
  - unfold finish_row at 1. rewrite E. cbn. rewrite E. apply IH. exact H.
Qed.

(** ** C3: the Critic's [sys.exit] escapes the ledger update *)

(** C3 (code bug).  When the Critic artifact holds no JSON value, or its
    object has no [top3], [_stage_critic] calls [sys.exit], whose
    [SystemExit] is not an [Exception]: neither [except] clause of
    [_run_pipeline] runs, the process exits non-zero, and the run's
    ledger row is left [running] instead of [error]. *)
Theorem C3_critic_exit_leaves_run_running : forall fe sl,
  run_pipeline (env_of (Some "The critic found nothing to rank.") fe sl) None (init [])
  = (Raise (SystemExit "Critic produced no parseable output."),
     {| ledger := [running_row 1]; stdin := [];
        trace := [RunCrew Scout; RunCrew Critic] |}) /\
  run_pipeline (env_of (Some ("{" ++ jstr "ideas" ++ ": []}")) fe sl) None (init [])
  = (Raise (SystemExit "Critic output missing 'top3' list."),
     {| ledger := [running_row 1]; stdin := [];
        trace := [RunCrew Scout; RunCrew Critic] |}).
Proof. intros fe sl. split; vm_compute; reflexivity. Qed.

(** ** C4: rejecting the design *)

(** C4.  If the run reaches the design-approval gate and the operator
    answers no, the process exits non-zero with the abort message, the
    run's ledger row ends [error] with the fixed aborted-by-user message,
    and no Builder run (the only caller of the Project Writer) happens
    during the run. *)
Theorem C4_rejection_aborts_without_builder : forall e topic s0 run s1 chosen s2 s3,
  start_phase e topic s0 = (Ok run, s1) ->
  until_approval e s1 = (Ok chosen, s2) ->
  prompt_design_approval s2 = (Ok false, s3) ->
  exists s4,
    run_pipeline e topic s0 =
      (Raise (SystemExit "Aborted. Edit storage/design_sheet.md or re-run to get a new design."), s4) /\
    exit_nonzero (fst (run_pipeline e topic s0)) = true /\
    (exists row, find_run run (ledger s4) = Some row /\
                 run_status row = "error" /\ run_error row = Some abort_message) /\
    (exists new, trace s4 = (trace s0 ++ new)%list /\ ~ In (RunCrew Builder) new).
Proof.
  intros e topic s0 run s1 chosen s2 s3 H1 H2 H3.
  destruct (start_phase_row _ _ _ _ _ H1) as [T1 R1].
  destruct (quiet_until_approval e _ _ _ H2) as [L2 (n2 & T2 & N2)].
  destruct (quiet_prompt_design_approval _ _ _ H3) as [L3 (n3 & T3 & N3)].
  assert (E : run_pipeline e topic s0 =
    (Raise (SystemExit "Aborted. Edit storage/design_sheet.md or re-run to get a new design."),
     {| ledger := map (finish_row run "error" (Some abort_message)) (ledger s3);
        stdin := stdin s3; trace := trace s3 |})).
  { unfold run_pipeline, bind at 1. rewrite H1.
    unfold try_except, pipeline_body, bind at 1. rewrite H2.
    unfold bind at 1. rewrite H3. reflexivity. }
  rewrite E. eexists. split; [reflexivity|]. split; [reflexivity|]. split.
  - cbn. rewrite L3, L2.
    destruct (find_run_finish run "error" (Some abort_message) _ R1) as (row & F & S & Er & _).
    exists row. auto.
  - exists (n2 ++ n3)%list. cbn. rewrite T3, T2, T1, app_assoc. split; [reflexivity|].
    rewrite in_app_iff. tauto.
Qed.

Lemma C4_rejection_aborts_without_builder_witness :
  exists run s1 chosen s2 s3,
    start_phase reject_env None (init [Line "1"; Line "n"]) = (Ok run, s1) /\
    until_approval reject_env s1 = (Ok chosen, s2) /\
    prompt_design_approval s2 = (Ok false, s3) /\
    exists s4,
      run_pipeline reject_env None (init [Line "1"; Line "n"]) =
        (Raise (SystemExit "Aborted. Edit storage/design_sheet.md or re-run to get a new design."), s4) /\
      exit_nonzero (fst (run_pipeline reject_env None (init [Line "1"; Line "n"]))) = true /\
      (exists row, find_run run (ledger s4) = Some row /\
                   run_status row = "error" /\ run_error row = Some abort_message) /\
      (exists new, trace s4 = (trace (init [Line "1"; Line "n"]) ++ new)%list /\
                   ~ In (RunCrew Builder) new).
Proof.
  pose (s1 := {| ledger := [running_row 1]; stdin := [Line "1"; Line "n"]; trace := [] |}).
  pose (s2 := snd (until_approval reject_env s1)).
  pose (s3 := snd (prompt_design_approval s2)).
  assert (H1 : start_phase reject_env None (init [Line "1"; Line "n"]) = (Ok 1, s1))
    by (vm_compute; reflexivity).
  assert (H2 : until_approval reject_env s1 = (Ok (chosen_of three_ideas 1), s2))
    by (vm_compute; reflexivity).
  assert (H3 : prompt_design_approval s2 = (Ok false, s3)) by (vm_compute; reflexivity).
  exists 1, s1, (chosen_of three_ideas 1), s2, s3.
  split; [exact H1|]. split; [exact H2|]. split; [exact H3|].
  exact (C4_rejection_aborts_without_builder _ _ _ _ _ _ _ _ H1 H2 H3).
Defined.

(** ** The selection gate *)

Lemma show_idea_fields : forall idea, show_idea idea = Ok tt ->
  (exists r, getitem idea "rank" = Ok r) /\ (exists t, getitem idea "trend_title" = Ok t).
Proof.
  intros idea H. unfold show_idea in H.
  destruct (getitem idea "rank"), (getitem idea "trend_title"), (getitem idea "one_liner"),
    (getitem idea "feasibility_score"), (getitem idea "target_user");
    try discriminate; eauto.
Qed.

Lemma show_ideas_cons : forall idea rest, show_ideas (idea :: rest) = Ok tt ->
  show_idea idea = Ok tt /\ show_ideas rest = Ok tt.
Proof.
  intros idea rest H. cbn in H. destruct (show_idea idea) as [[]|x]; [auto | discriminate].
Qed.

Lemma next_rank_find : forall e ideas k x,
  show_ideas ideas = Ok tt ->
  find (fun y => rank_is e y k) ideas = Some x ->
  next_rank e ideas k = Ok x /\ exists t, getitem x "trend_title" = Ok t.
Proof.
  intros e ideas k x. induction ideas as [|y ys IH]; cbn [find]; [discriminate|].
  intros Hs Hf. destruct (show_ideas_cons _ _ Hs) as [H1 H2].
  destruct (show_idea_fields _ H1) as [[r Hr] Ht].
  cbn. rewrite Hr. unfold rank_is in Hf. rewrite Hr in Hf.
  destruct (py_eq_int e r k).
  - inversion Hf; subst. auto.
  - apply IH; assumption.
Qed.

Lemma next_rank_none : forall e ideas k,
  show_ideas ideas = Ok tt ->
  forallb (fun y => negb (rank_is e y k)) ideas = true ->
  next_rank e ideas k = Raise (PyError "StopIteration" "").
Proof.
  intros e ideas k. induction ideas as [|y ys IH]; [reflexivity|].
  intros Hs Hf. destruct (show_ideas_cons _ _ Hs) as [H1 H2].
  destruct (show_idea_fields _ H1) as [[r Hr] _].
  cbn in Hf |- *. rewrite Hr. unfold rank_is in Hf. rewrite Hr in Hf.
  destruct (py_eq_int e r k); [discriminate|]. apply IH; assumption.
Qed.

Lemma choice_loop_skip : forall e ideas bad l,
  Forall rejected bad -> choice_loop e ideas (bad ++ l)%list = choice_loop e ideas l.
Proof.
  intros e ideas bad l H. induction H as [|b bad (t & -> & Ht) _ IH]; [reflexivity|].
  cbn. rewrite Ht. exact IH.
Qed.

Lemma choice_value_some : forall c, choice_value c <> None <-> In c ["1"; "2"; "3"].
Proof.
  intros c. unfold choice_value. cbn.
  destruct (String.eqb_spec c "1"); [subst; split; auto; discriminate|].
  destruct (String.eqb_spec c "2"); [subst; split; auto; discriminate|].
  destruct (String.eqb_spec c "3"); [subst; split; auto; discriminate|].
  split; [congruence|]. intros [?|[?|[?|[]]]]; congruence.
Qed.

(** ** C5: the ranked list is not validated *)

(** C5: a counterexample.  A Critic artifact whose [top3] holds one entry
    of rank 2 is handed to the selection gate, although its ranks are not
    [1..1]. *)
Lemma C5_counterexample :
  ~ (forall e s top3 s', stage_critic e s = (Ok top3, s') ->
       exists ideas, py_iter top3 = Ok ideas /\ ranks_exact e ideas = true).
Proof.
  intros H. remember (stage_critic gap_env (init [])) as p eqn:E.
  destruct p as [[t|x] s'].
  - destruct (H _ _ _ _ (eq_sym E)) as (ideas & P & R).
    vm_compute in E. injection E as Et _. subst t.
    vm_compute in P. injection P as <-. vm_compute in R. discriminate.
  - vm_compute in E. discriminate.
Qed.

Lemma find_none_forallb : forall (A : Type) (f : A -> bool) l,
  find f l = None -> forallb (fun y => negb (f y)) l = true.
Proof.
  intros A f l. induction l as [|y l IH]; [reflexivity|].
  cbn. destruct (f y); [discriminate|]. exact IH.
Qed.

(** C5 (amended).  [_stage_critic] hands on exactly the truthy [top3] of
    the truthy value parsed from the stripped, non-empty artifact (the
    value itself when it is not a dict); nothing about the ranks of its
    entries is checked.  When the gate gets it and the first accepted
    answer is [k], it returns the first entry whose rank equals [k], or
    raises [StopIteration] when there is none. *)
Theorem C5_stage_critic_passes_top3_unchecked : forall e s top3,
  crew_exn e Critic = None ->
  ((exists s', stage_critic e s = (Ok top3, s')) <->
   (exists t v, critic_file e = Some t /\ py_strip t <> EmptyString /\
      parse_json (recursion_limit e) (int_max_str_digits e) (py_strip t) = Ok (Some v) /\
      truthy e v = true /\ top3 = top3_of v /\ truthy e top3 = true)) /\
  (forall ideas s2 bad c k rest,
     py_iter top3 = Ok ideas -> show_ideas ideas = Ok tt -> Forall rejected bad ->
     choice_value (py_strip c) = Some k -> stdin s2 = (bad ++ Line c :: rest)%list ->
     fst (prompt_idea_choice e top3 s2) =
       match find (fun y => rank_is e y k) ideas with
       | Some x => Ok x
       | None => Raise (PyError "StopIteration" "")
       end).
Proof.
  intros e s top3 Hc. split.
  2:{ intros ideas s2 bad c k rest Hp Hs Hb Hk Hin.
      unfold prompt_idea_choice, bind, lift. rewrite Hp, Hs.
      rewrite Hin, choice_loop_skip by exact Hb. cbn. rewrite Hk.
      destruct (find (fun y => rank_is e y k) ideas) as [x|] eqn:F.
      - destruct (next_rank_find _ _ _ _ Hs F) as [Hn [t Ht]]. rewrite Hn, Ht. reflexivity.
      - rewrite (next_rank_none _ _ _ Hs (find_none_forallb _ _ _ F)). reflexivity. }
  unfold stage_critic, run_crew, parse_json_file, bind, emit.
  rewrite Hc. cbn.
  destruct (critic_file e) as [t|]; cbn.
  2:{ split; [intros [s' H]; discriminate | intros (t & v & H & _); discriminate]. }
  destruct (String.eqb_spec (py_strip t) EmptyString) as [Et|Et]; cbn.
  { split; [intros [s' H]; discriminate | intros (t' & v & Ht & Hn & _); congruence]. }
  unfold lift. destruct (parse_json _ _ (py_strip t)) as [[v|]|x] eqn:P; cbn.
  - destruct (truthy e v) eqn:Tv; cbn.
    + destruct (truthy e (top3_of v)) eqn:Tt; cbn.
      * split.
        -- intros [s' H]. inversion H; subst. exists t, v. auto 7.
        -- intros (t' & v' & Ht & _ & Pv & _ & -> & _). inversion Ht; subst.
           rewrite P in Pv. inversion Pv; subst. eexists. reflexivity.
      * split; [intros [s' H]; discriminate|].
        intros (t' & v' & Ht & _ & Pv & _ & -> & T). inversion Ht; subst.
        rewrite P in Pv. inversion Pv; subst. congruence.
    + split; [intros [s' H]; discriminate|].
      intros (t' & v' & Ht & _ & Pv & T & _). inversion Ht; subst.
      rewrite P in Pv. inversion Pv; subst. congruence.
  - split; [intros [s' H]; discriminate|].
    intros (t' & v' & Ht & _ & Pv & _). inversion Ht; subst. congruence.
  - split; [intros [s' H]; discriminate|].
    intros (t' & v' & Ht & _ & Pv & _). inversion Ht; subst. congruence.
Qed.

Lemma C5_stage_critic_passes_top3_unchecked_witness :
  crew_exn gap_env Critic = None /\
  ((exists s', stage_critic gap_env (init []) = (Ok (JArr (ideas_of (critic_text [idea_text "2" "Beta"]))), s')) <->
   (exists t v, critic_file gap_env = Some t /\ py_strip t <> EmptyString /\
     parse_json (recursion_limit gap_env) (int_max_str_digits gap_env) (py_strip t) = Ok (Some v) /\
     truthy gap_env v = true /\
     JArr (ideas_of (critic_text [idea_text "2" "Beta"])) = top3_of v /\
     truthy gap_env (JArr (ideas_of (critic_text [idea_text "2" "Beta"]))) = true)).
Proof.
  split; [reflexivity|]. apply (proj1 (C5_stage_critic_passes_top3_unchecked gap_env (init []) _ eq_refl)).
Defined.

(** ** C7: accepted answers and the persisted choice *)

(** C7.  The selection gate accepts exactly the stripped answers [1], [2]
    and [3]; it skips every other line, and on the first accepted answer
    [k] it persists and returns the first entry whose rank equals [k],
    consuming the input up to that line. *)
Theorem C7_selection_gate_reprompts_then_persists :
  (forall c, choice_value c <> None <-> In c ["1"; "2"; "3"]) /\
  (forall e ideas s bad c k x rest,
     show_ideas ideas = Ok tt ->
     Forall rejected bad ->
     choice_value (py_strip c) = Some k ->
     find (fun y => rank_is e y k) ideas = Some x ->
     stdin s = (bad ++ Line c :: rest)%list ->
     prompt_idea_choice e (JArr ideas) s =
       (Ok x, {| ledger := ledger s; stdin := rest;
                 trace := (trace s ++ [WriteText "storage/chosen_idea.json" x])%list |})).
Proof.
  split; [exact choice_value_some|].
  intros e ideas s bad c k x rest Hs Hb Hc Hf Hin.
  destruct (next_rank_find _ _ _ _ Hs Hf) as [Hn [t Ht]].
  unfold prompt_idea_choice, bind, lift. cbn [py_iter]. rewrite Hs.
  rewrite Hin, choice_loop_skip by exact Hb. cbn. rewrite Hc, Hn, Ht. reflexivity.
Qed.

Lemma C7_selection_gate_reprompts_then_persists_witness :
  prompt_idea_choice (env_of (Some three_ideas) (fun _ _ => false) (fun _ => "beta"))
    (JArr (ideas_of three_ideas)) (init [Line "4"; Line " 2 "]) =
  (Ok (chosen_of three_ideas 2),
   {| ledger := []; stdin := [];
      trace := [WriteText "storage/chosen_idea.json" (chosen_of three_ideas 2)] |}).
Proof.
  refine (proj2 C7_selection_gate_reprompts_then_persists
            (env_of (Some three_ideas) (fun _ _ => false) (fun _ => "beta"))
            (ideas_of three_ideas) (init [Line "4"; Line " 2 "]) [Line "4"] " 2 " 2%Z
            (chosen_of three_ideas 2) [] _ _ _ _ _).
  - vm_compute. reflexivity.
  - constructor; [|constructor]. exists "4". split; reflexivity.
  - vm_compute. reflexivity.
  - vm_compute. reflexivity.
  - reflexivity.
Defined.

(** ** C10: an accepted answer without a matching rank *)

(** [_stage_critic] checks neither the ranks nor the fields of the
    entries: a truthy [top3] of a truthy parsed value is handed on. *)
Lemma stage_critic_accepts : forall e s t v,
  crew_exn e Critic = None -> critic_file e = Some t -> py_strip t <> EmptyString ->
  parse_json (recursion_limit e) (int_max_str_digits e) (py_strip t) = Ok (Some v) ->
  truthy e v = true -> truthy e (top3_of v) = true ->
  exists s', stage_critic e s = (Ok (top3_of v), s').
Proof.
  intros e s t v Hc Ht Hn P Tv Tt. unfold stage_critic, run_crew, parse_json_file, bind, emit.
  rewrite Hc. cbn. rewrite Ht. cbn.
  destruct (String.eqb_spec (py_strip t) EmptyString) as [Et|Et]; [contradiction|]. cbn.
  unfold lift. rewrite P. cbn. rewrite Tv. cbn. rewrite Tt. cbn. eexists. reflexivity.
Qed.

(** C10.  When an answer [k] is accepted, after any number of rejected
    lines, but no entry of the list has a rank equal to [k], the lookup
    raises [StopIteration] at once: the gate does not re-prompt and
    persists nothing.  The Evaluation stage does not rule such lists out:
    [_stage_critic] hands on any truthy [top3] of a truthy parsed value,
    whatever the ranks of its entries. *)
Theorem C10_missing_rank_raises_stopiteration :
  (forall e ideas s bad c k rest,
     show_ideas ideas = Ok tt ->
     Forall rejected bad ->
     choice_value (py_strip c) = Some k ->
     forallb (fun y => negb (rank_is e y k)) ideas = true ->
     stdin s = (bad ++ Line c :: rest)%list ->
     prompt_idea_choice e (JArr ideas) s =
       (Raise (PyError "StopIteration" ""), set_stdin s rest)) /\
  (forall e s t v,
     crew_exn e Critic = None -> critic_file e = Some t -> py_strip t <> EmptyString ->
     parse_json (recursion_limit e) (int_max_str_digits e) (py_strip t) = Ok (Some v) ->
     truthy e v = true -> truthy e (top3_of v) = true ->
     exists s', stage_critic e s = (Ok (top3_of v), s')).
Proof.
  split; [|exact stage_critic_accepts].
  intros e ideas s bad c k rest Hs Hb Hc Hf Hin.
  unfold prompt_idea_choice, bind, lift. cbn [py_iter]. rewrite Hs.
  rewrite Hin, choice_loop_skip by exact Hb. cbn.
  rewrite Hc, (next_rank_none _ _ _ Hs Hf). reflexivity.
Qed.

Lemma C10_missing_rank_raises_stopiteration_witness :
  prompt_idea_choice string_rank_env (JArr (ideas_of (match critic_file string_rank_env with
                                                     | Some t => t | None => EmptyString end)))
    (init [Line "x"; Line "1"; Line "2"]) =
  (Raise (PyError "StopIteration" ""), set_stdin (init [Line "x"; Line "1"; Line "2"]) [Line "2"]) /\
  exists s', stage_critic string_rank_env (init []) =
    (Ok (top3_of (match parse_json 1000 4300 (py_strip (match critic_file string_rank_env with
                                                     | Some t => t | None => EmptyString end)) with
                  | Ok (Some v) => v | _ => JNull end)), s').
Proof.
  split.
  - refine (proj1 C10_missing_rank_raises_stopiteration string_rank_env _
              (init [Line "x"; Line "1"; Line "2"]) [Line "x"] "1" 1%Z [Line "2"] _ _ _ _ _).
    + vm_compute. reflexivity.
    + constructor; [|constructor]. exists "x". split; reflexivity.
    + reflexivity.
    + vm_compute. reflexivity.
    + reflexivity.
  - refine (proj2 C10_missing_rank_raises_stopiteration string_rank_env (init [])
              (match critic_file string_rank_env with Some t => t | None => EmptyString end)
              _ _ _ _ _ _ _).
    + reflexivity.
    + vm_compute. reflexivity.
    + vm_compute. discriminate.
    + vm_compute. reflexivity.
    + vm_compute. reflexivity.
    + vm_compute. reflexivity.
Defined.

(** With string ranks the whole run stops there: [_run_pipeline]'s
    [except Exception] records the empty message of the [StopIteration]. *)
Example string_ranks_pipeline_error :
  run_pipeline string_rank_env None (init [Line "1"]) =
  (Raise (SystemExit "Pipeline error: "),
   {| ledger := [{| run_id := 1; run_topic := None; run_status := "error";
                    run_error := Some ""; run_finished := true |}];
      stdin := []; trace := [RunCrew Scout; RunCrew Critic] |}).
Proof. vm_compute. reflexivity. Qed.

End PipelineFacts.

(** * Claims about recovery mode *)
Module RecoverFacts.
Import Pipeline Recover Scenarios.

Lemma ascii_compare_trans_le : forall a b c,
  Ascii.compare a b <> Gt -> Ascii.compare b c <> Gt -> Ascii.compare a c <> Gt.
Proof.
  unfold Ascii.compare. intros a b c H1 H2.
  rewrite N.compare_le_iff in *. lia.
Qed.

Lemma ascii_compare_lt_le : forall a b c,
  Ascii.compare a b = Lt -> Ascii.compare b c <> Gt -> Ascii.compare a c = Lt.
Proof.
  unfold Ascii.compare. intros a b c H1 H2.
  rewrite N.compare_lt_iff in *. rewrite N.compare_le_iff in *. lia.
Qed.

Lemma ascii_compare_le_lt : forall a b c,
  Ascii.compare a b <> Gt -> Ascii.compare b c = Lt -> Ascii.compare a c = Lt.
Proof.
  unfold Ascii.compare. intros a b c H1 H2.
  rewrite N.compare_lt_iff in *. rewrite N.compare_le_iff in *. lia.
Qed.

Lemma string_compare_trans_le : forall s1 s2 s3,
  String.compare s1 s2 <> Gt -> String.compare s2 s3 <> Gt -> String.compare s1 s3 <> Gt.
Proof.
  induction s1 as [|a s1 IH]; intros [|b s2] [|c s3]; cbn; try congruence.
  intros H1 H2.
  destruct (Ascii.compare a b) eqn:Eab; destruct (Ascii.compare b c) eqn:Ebc; try congruence.
  - apply Ascii.compare_eq_iff in Eab. apply Ascii.compare_eq_iff in Ebc. subst.
    unfold Ascii.compare at 1. rewrite N.compare_refl. exact (IH _ _ H1 H2).
  - apply Ascii.compare_eq_iff in Eab. subst. rewrite Ebc. discriminate.
  - apply Ascii.compare_eq_iff in Ebc. subst. rewrite Eab. discriminate.
  - rewrite (ascii_compare_lt_le a b c Eab ltac:(congruence)). discriminate.
Qed.

Lemma leb_trans : forall s1 s2 s3,
  String.leb s1 s2 = true -> String.leb s2 s3 = true -> String.leb s1 s3 = true.
Proof.
  unfold String.leb. intros s1 s2 s3 H1 H2.
  pose proof (string_compare_trans_le s1 s2 s3) as T.
  destruct (String.compare s1 s2), (String.compare s2 s3), (String.compare s1 s3);
    try discriminate; try reflexivity; exfalso; apply T; congruence.
Qed.

Lemma leb_false : forall s1 s2, String.leb s1 s2 = false -> String.leb s2 s1 = true.
Proof.
  intros s1 s2 H. destruct (String.leb_total s1 s2) as [E|E]; congruence.
Qed.

Lemma insert_entry_in : forall x l y, In y (insert_entry x l) <-> y = x \/ In y l.
Proof.
  intros x l y. induction l as [|z l IH]; cbn; [intuition (subst; auto)|].
  destruct (String.leb (fst x) (fst z)); cbn; [intuition (subst; auto)|].
  rewrite IH. intuition (subst; auto).
Qed.

Lemma insert_entry_sorted : forall x l, sorted l -> sorted (insert_entry x l).
Proof.
  intros x l. induction l as [|z l IH]; cbn; intros Hs.
  - split; [intros y []|exact I].
  - destruct Hs as [Hz Hl]. destruct (String.leb (fst x) (fst z)) eqn:E; cbn.
    + split; [|split; assumption].
      intros y [<-|Hy]; [exact E | exact (leb_trans _ _ _ E (Hz y Hy))].
    + split; [|exact (IH Hl)].
      intros y Hy. apply insert_entry_in in Hy. destruct Hy as [->|Hy].
      * apply leb_false. exact E.
      * exact (Hz y Hy).
Qed.

Lemma sort_entries_in : forall l y, In y (sort_entries l) <-> In y l.
Proof.
  induction l as [|x l IH]; intros y; cbn; [tauto|].
  rewrite insert_entry_in, IH. intuition.
Qed.

Lemma sort_entries_sorted : forall l, sorted (sort_entries l).
Proof. induction l as [|x l IH]; cbn; [exact I | apply insert_entry_sorted; exact IH]. Qed.

Lemma filter_sorted : forall (p : string * bool -> bool) l, sorted l -> sorted (filter p l).
Proof.
  intros p. induction l as [|x l IH]; cbn; [auto|]. intros [Hx Hl].
  destruct (p x); cbn; [|exact (IH Hl)].
  split; [|exact (IH Hl)]. intros y Hy. apply filter_In in Hy. exact (Hx y (proj1 Hy)).
Qed.

Lemma last_entry_none : forall l, last_entry l = None -> l = [].
Proof.
  induction l as [|x [|y l] IH]; cbn; auto; try discriminate. intros H. specialize (IH H). discriminate.
Qed.

Lemma last_entry_max : forall l z, sorted l -> last_entry l = Some z ->
  In z l /\ forall y, In y l -> String.leb (fst y) (fst z) = true.
Proof.
  induction l as [|x [|w l] IH]; intros z Hs Hz; cbn in Hz; try discriminate.
  - inversion Hz; subst. cbn. split; [auto|]. intros y [E|[]]. subst y.
    unfold String.leb. destruct (String.compare (fst z) (fst z)) eqn:E; [reflexivity|reflexivity|].
    pose proof (String.compare_antisym (fst z) (fst z)) as A. rewrite E in A. discriminate.
  - destruct Hs as [Hx Hl]. destruct (IH z Hl Hz) as [Hin Hmax]. split; [right; exact Hin|].
    intros y [<-|Hy]; [exact (Hx z Hin) | exact (Hmax y Hy)].
Qed.

(** C2: a counterexample.  Without any Construction artifact, recovery
    with one project directory under [output/] succeeds (exit status 0)
    and only re-runs [git init] there. *)
Lemma C2_counterexample :
  ~ (forall f, builder_output f = None -> exit_nonzero (fst (recover f)) = true).
Proof.
  intros H.
  specialize (H {| output_exists := true; output_entries := [("proj", true)];
                   builder_output := None |} eq_refl).
  discriminate H.
Qed.

(** C2 (code bug).  Recovery mode, documented as replaying
    [builder_output.txt], never reads the Construction artifact, runs no
    Agent Executor and writes no file: when [output/] holds no directory
    it exits with the "No directories found" message and does nothing,
    and otherwise it runs [git init] once, on the directory whose name
    sorts last, and succeeds. *)
Theorem C2_recover_only_reinits_last_directory : forall f,
  (forall b, recover {| output_exists := output_exists f; output_entries := output_entries f;
                        builder_output := b |} = recover f) /\
  ((output_exists f = false \/ forall d, ~ In (d, true) (output_entries f)) ->
   recover f = (Raise (SystemExit no_dirs_message), [])) /\
  (forall d, output_exists f = true -> In (d, true) (output_entries f) ->
   exists last, In (last, true) (output_entries f) /\
     (forall d', In (d', true) (output_entries f) -> String.leb d' last = true) /\
     recover f = (Ok tt, [GitInit ("output/" ++ last)])).
Proof.
  intros f. split; [reflexivity|]. split.
  - intros H. unfold recover. destruct H as [H|H].
    + rewrite H. reflexivity.
    + destruct (output_exists f); [|reflexivity].
      destruct (last_entry (filter snd (sort_entries (output_entries f)))) as [[d b]|] eqn:E;
        [|reflexivity].
      exfalso. assert (In (d, b) (filter snd (sort_entries (output_entries f)))) as Hin.
      { exact (proj1 (last_entry_max _ _ (filter_sorted _ _ (sort_entries_sorted _)) E)). }
      apply filter_In in Hin. destruct Hin as [Hin Hb]. cbn in Hb. subst b.
      rewrite sort_entries_in in Hin. exact (H d Hin).
  - intros d He Hd. unfold recover. rewrite He.
    destruct (last_entry (filter snd (sort_entries (output_entries f)))) as [[l b]|] eqn:E.
    + destruct (last_entry_max _ _ (filter_sorted _ _ (sort_entries_sorted _)) E) as [Hin Hmax].
      apply filter_In in Hin as Hin'. destruct Hin' as [Hin' Hb]. cbn in Hb. subst b.
      exists l. split; [apply sort_entries_in; exact Hin'|]. split; [|reflexivity].
      intros d' Hd'. apply (Hmax (d', true)). apply filter_In. split; [|reflexivity].
      apply sort_entries_in. exact Hd'.
    + apply last_entry_none in E.
      assert (In (d, true) (filter snd (sort_entries (output_entries f)))) as Hin
        by (apply filter_In; split; [apply sort_entries_in; exact Hd | reflexivity]).
      rewrite E in Hin. destruct Hin.
Qed.

Lemma C2_recover_only_reinits_last_directory_witness :
  exists last,
    In (last, true) [("b", true); ("c.txt", false); ("a", true)] /\
    (forall d', In (d', true) [("b", true); ("c.txt", false); ("a", true)] ->
                String.leb d' last = true) /\
    recover {| output_exists := true; output_entries := [("b", true); ("c.txt", false); ("a", true)];
               builder_output := None |} = (Ok tt, [GitInit ("output/" ++ last)]).
Proof.
  exact (proj2 (proj2 (C2_recover_only_reinits_last_directory
    {| output_exists := true; output_entries := [("b", true); ("c.txt", false); ("a", true)];
       builder_output := None |})) "a" eq_refl (or_intror (or_intror (or_introl eq_refl)))).
Defined.

End RecoverFacts.

(** * Claims about the source adapters *)
Module AdapterFacts.
Import Adapters.

(** C8: a counterexample.  With both Reddit credentials set and [praw]
    set up, a run in which every subreddit fails returns the empty list
    (each failure is logged and skipped), not an error marker. *)
Lemma C8_counterexample :
  ~ (forall cid cs init fetch subs,
       (forall sub, fst (fetch sub) = [] /\ snd (fetch sub) <> None) ->
       exists m, fst (reddit_run cid cs init fetch subs) = [ErrorMarker m "reddit"]).
Proof.
  intros H.
  destruct (H (Some "id") (Some "secret") (Done tt) (fun _ => ([], Some "403 Forbidden"))
              "startups,SaaS") as [m Hm].
  - intros sub. split; [reflexivity | discriminate].
  - discriminate Hm.
Qed.

(** C8 (amended).  No adapter raises.  A failure of the single [try]
    of Hacker News, GitHub Trending and Product Hunt, a failure to set up
    [praw], a missing Reddit or Product Hunt credential, and a failure of
    the Twitter subprocess fallback give the one-element list with that
    adapter's error marker; a missing credential attempts no network call.
    A failing subreddit is skipped, keeping the other posts, and a Twitter
    module failure falls back to the subprocess, whose failed lines are
    dropped. *)
Theorem C8_adapter_failures : forall m,
  hn_run (Fails m) = ([ErrorMarker m "hackernews"], true) /\
  github_run (Fails m) = ([ErrorMarker m "github_trending"], true) /\
  (forall key, env_set key = true ->
     producthunt_run key (Fails m) = ([ErrorMarker m "producthunt"], true)) /\
  (forall fetch, producthunt_run None fetch =
     ([ErrorMarker "PRODUCTHUNT_API_KEY not set" "producthunt"], false)) /\
  (forall cid cs fetch subs, env_set cid = true -> env_set cs = true ->
     reddit_run cid cs (Fails m) fetch subs = ([ErrorMarker m "reddit"], true)) /\
  (forall cid cs init fetch subs, env_set cid = false \/ env_set cs = false ->
     reddit_run cid cs init fetch subs =
       ([ErrorMarker "REDDIT_CLIENT_ID/SECRET not set" "reddit"], false)) /\
  (forall cid cs fetch subs, env_set cid = true -> env_set cs = true ->
     reddit_run cid cs (Done tt) fetch subs =
       (flat_map (fun sub => map (Item ("reddit/r/" ++ py_strip sub)) (fst (fetch (py_strip sub))))
                 (split_comma subs), true)) /\
  (forall mr limit, (exists msg, fetch_via_module mr limit = Fails msg) ->
     twitter_run mr (SubRaises m) limit = ([ErrorMarker m "twitter"], true) /\
     forall lines, twitter_run mr (SubCompleted lines) limit =
       (map (Item "twitter") (flat_map (fun l => match l with Some t => [t] | None => [] end) lines),
        true)).
Proof.
  intros m. split; [reflexivity|]. split; [reflexivity|]. split.
  { intros key Hk. unfold producthunt_run. rewrite Hk. reflexivity. }
  split; [reflexivity|]. split.
  { intros cid cs fetch subs H1 H2. unfold reddit_run. rewrite H1, H2. reflexivity. }
  split.
  { intros cid cs init fetch subs [H|H]; unfold reddit_run; rewrite H;
      [reflexivity | rewrite orb_true_r; reflexivity]. }
  split.
  { intros cid cs fetch subs H1 H2. unfold reddit_run. rewrite H1, H2. reflexivity. }
  intros mr limit [msg H]. unfold twitter_run. rewrite H. split; [reflexivity|].
  intros lines. reflexivity.
Qed.

Lemma C8_adapter_failures_witness :
  producthunt_run (Some "key") (Fails "HTTP 401") = ([ErrorMarker "HTTP 401" "producthunt"], true) /\
  reddit_run (Some "id") (Some "secret") (Fails "HTTP 401") (fun _ => ([], None)) "startups" =
    ([ErrorMarker "HTTP 401" "reddit"], true) /\
  twitter_run ModImportError (SubRaises "HTTP 401") 20 = ([ErrorMarker "HTTP 401" "twitter"], true).
Proof.
  destruct (C8_adapter_failures "HTTP 401") as (_ & _ & Hp & _ & Hr & _ & _ & Ht).
  split; [apply Hp; reflexivity|]. split; [apply Hr; reflexivity|].
  apply (proj1 (Ht ModImportError 20 (ex_intro _ _ eq_refl))).
Defined.

End AdapterFacts.

(** * Further properties of the orchestrator *)
Module PipelineExtras.
Import Json Pipeline Scenarios LedgerModel ExtraScenarios PipelineFacts.

(** ** Ledger invariants of the monadic pieces *)

Lemma keeps_quiet : forall A (m : M A) P, quiet m -> keeps P m.
Proof. intros A m P Hq s r s' H HP. destruct (Hq _ _ _ H) as [L _]. congruence. Qed.

Lemma keeps_bind : forall A B P (m : M A) (k : A -> M B),
  keeps P m -> (forall a, keeps P (k a)) -> keeps P (bind m k).
Proof.
  intros A B P m k Hm Hk s r s' H HP. unfold bind in H.
  destruct (m s) as [[a|x] s1] eqn:E.
  - exact (Hk a _ _ _ H (Hm _ _ _ E HP)).
  - inversion H; subst. exact (Hm _ _ _ E HP).
Qed.

Lemma keeps_try : forall A P (m : M A) h,
  keeps P m -> (forall x, keeps P (h x)) -> keeps P (try_except m h).
Proof.
  intros A P m h Hm Hh s r s' H HP. unfold try_except in H.
  destruct (m s) as [[a|x] s1] eqn:E.
  - inversion H; subst. exact (Hm _ _ _ E HP).
  - exact (Hh x _ _ _ H (Hm _ _ _ E HP)).
Qed.

Lemma keeps_stage_builder : forall P e chosen, keeps P (stage_builder e chosen).
Proof.
  intros P e chosen s r s' H HP. unfold stage_builder, run_crew, bind, emit in H. cbn in H.
  destruct (crew_exn e Builder); cbn in H.
  - inversion H; subst. exact HP.
  - destruct (project_dir_exists e); cbn in H; inversion H; subst; exact HP.
Qed.

Lemma keeps_finish_run : forall P run st err,
  (forall l, P l -> P (map (finish_row run st err) l)) -> keeps P (finish_run run st err).
Proof. intros P run st err HP s r s' H H0. inversion H; subst. cbn. auto. Qed.

Lemma find_run_map_finish : forall run run' st err l,
  find_run run l <> None -> find_run run (map (finish_row run' st err) l) <> None.
Proof.
  intros run run' st err l. induction l as [|x l IH]; cbn; [auto|].
  assert (Hid : run_id (finish_row run' st err x) = run_id x)
    by (unfold finish_row; destruct (Nat.eqb (run_id x) run'); reflexivity).
  rewrite Hid. destruct (Nat.eqb (run_id x) run); auto. discriminate.
Qed.

(** The statuses are the two the code writes. *)
Lemma keeps_handlers : forall P run,
  (forall l st err, In st ["success"; "error"] -> P l -> P (map (finish_row run st err) l)) ->
  forall x, keeps P (handlers run x).
Proof.
  intros P run HP x. destruct x; cbn.
  - apply keeps_quiet, quiet_raise.
  - apply keeps_bind; [apply keeps_finish_run; intros l; apply HP; cbn; auto
                      | intros _; apply keeps_quiet, quiet_raise].
  - apply keeps_bind; [apply keeps_finish_run; intros l; apply HP; cbn; auto
                      | intros _; apply keeps_quiet, quiet_raise].
Qed.

Lemma keeps_body : forall P e run,
  (forall l st err, In st ["success"; "error"] -> P l -> P (map (finish_row run st err) l)) ->
  keeps P (pipeline_body e run).
Proof.
  intros P e run HP. unfold pipeline_body.
  apply keeps_bind; [apply keeps_quiet, quiet_until_approval|]. intros chosen.
  apply keeps_bind; [apply keeps_quiet, quiet_prompt_design_approval|]. intros [|]; cbn.
  - apply keeps_bind; [apply keeps_stage_builder|]. intros _.
    apply keeps_finish_run; intros l; apply HP; cbn; auto.
  - apply keeps_bind; [apply keeps_finish_run; intros l; apply HP; cbn; auto|]. intros _.
    apply keeps_quiet, quiet_raise.
Qed.

Lemma finish_row_other : forall run st err l,
  Forall (fun r => run_id r <> run) l -> map (finish_row run st err) l = l.
Proof.
  intros run st err l H. induction H as [|x l Hx _ IH]; [reflexivity|].
  cbn. rewrite IH. unfold finish_row. apply Nat.eqb_neq in Hx. rewrite Hx. reflexivity.
Qed.

Lemma run_appended_finish : forall l0 topic st err l,
  ids_below l0 -> In st ["success"; "error"] ->
  run_appended l0 topic l -> run_appended l0 topic (map (finish_row (S (length l0)) st err) l).
Proof.
  intros l0 topic st err l Hb Hst (row & -> & Hid & Ht & Hs).
  rewrite map_app, finish_row_other.
  2:{ eapply Forall_impl; [|exact Hb]. cbn. intros r Hr. lia. }
  cbn. unfold finish_row at 1. rewrite Hid, Nat.eqb_refl.
  eexists. split; [reflexivity|]. cbn. split; [reflexivity|]. split; [exact Ht|].
  destruct Hst as [<-|[<-|[]]]; cbn; auto.
Qed.

(** ** The selection gate returns an entry with a title *)

Lemma choice_loop_title : forall e ideas lines x rest,
  choice_loop e ideas lines = (Ok x, rest) -> exists t, getitem x "trend_title" = Ok t.
Proof.
  intros e ideas lines. induction lines as [|[l|] lines IH]; cbn; intros x rest H;
    try discriminate.
  destruct (choice_value (py_strip l)).
  - destruct (next_rank e ideas z) as [y|]; [|discriminate].
    destruct (getitem y "trend_title") eqn:G; inversion H; subst. eauto.
  - exact (IH _ _ H).
Qed.

Lemma prompt_idea_choice_title : forall e top3 s x s',
  prompt_idea_choice e top3 s = (Ok x, s') -> exists t, getitem x "trend_title" = Ok t.
Proof.
  intros e top3 s x s' H. unfold prompt_idea_choice, bind, lift in H.
  destruct (py_iter top3) as [ideas|]; [|discriminate].
  destruct (show_ideas ideas) as [[]|]; [|discriminate].
  destruct (choice_loop e ideas (stdin s)) as [[y|] rest] eqn:C; [|discriminate].
  cbn in H. inversion H; subst. exact (choice_loop_title _ _ _ _ _ C).
Qed.

Lemma until_approval_title : forall e s x s',
  until_approval e s = (Ok x, s') -> exists t, getitem x "trend_title" = Ok t.
Proof.
  intros e s x s' H. unfold until_approval, bind in H.
  destruct (stage_scout e s) as [[[]|] s1]; [|discriminate].
  destruct (stage_critic e s1) as [[top3|] s2]; [|discriminate].
  destruct (prompt_idea_choice e top3 s2) as [[y|] s3] eqn:P; [|discriminate].
  destruct (stage_architect e s3) as [[[]|] s4]; [|discriminate].
  inversion H; subst. exact (prompt_idea_choice_title _ _ _ _ _ P).
Qed.

Lemma approval_loop_skip : forall bad l,
  Forall (fun x => exists t, x = Line t /\ ~ In (py_lower (py_strip t)) ["y"; "yes"; "n"; "no"]) bad ->
  approval_loop (bad ++ l)%list = approval_loop l.
Proof.
  intros bad l H. induction H as [|b bad (t & -> & Ht) _ IH]; [reflexivity|].
  cbn [app approval_loop].
  destruct (String.eqb_spec (py_lower (py_strip t)) "y"); [exfalso; apply Ht; cbn; auto|].
  destruct (String.eqb_spec (py_lower (py_strip t)) "yes"); [exfalso; apply Ht; cbn; auto|].
  destruct (String.eqb_spec (py_lower (py_strip t)) "n"); [exfalso; apply Ht; cbn; auto|].
  destruct (String.eqb_spec (py_lower (py_strip t)) "no"); [exfalso; apply Ht; cbn; auto|].
  exact IH.
Qed.

Lemma show_idea_missing : forall m f,
  In f ["rank"; "trend_title"; "one_liner"; "feasibility_score"; "target_user"] ->
  dict_get (codes f) m = None ->
  exists f', In f' ["rank"; "trend_title"; "one_liner"; "feasibility_score"; "target_user"] /\
    show_idea (JObj m) = Raise (PyError "KeyError" ("'" ++ f' ++ "'")).
Proof.
  intros m f Hf Hm. unfold show_idea, getitem.
  destruct (dict_get (codes "rank") m) eqn:E1;
    [|exists "rank"; split; [cbn; auto | reflexivity]].
  destruct (dict_get (codes "trend_title") m) eqn:E2;
    [|exists "trend_title"; split; [cbn; auto | reflexivity]].
  destruct (dict_get (codes "one_liner") m) eqn:E3;
    [|exists "one_liner"; split; [cbn; auto 6 | reflexivity]].
  destruct (dict_get (codes "feasibility_score") m) eqn:E4;
    [|exists "feasibility_score"; split; [cbn; auto 6 | reflexivity]].
  destruct (dict_get (codes "target_user") m) eqn:E5;
    [|exists "target_user"; split; [cbn; auto 6 | reflexivity]].
  exfalso. destruct Hf as [<-|[<-|[<-|[<-|[<-|[]]]]]]; congruence.
Qed.

Lemma show_ideas_missing : forall ideas,
  Forall (fun i => exists m, i = JObj m) ideas ->
  (exists m f, In (JObj m) ideas /\
     In f ["rank"; "trend_title"; "one_liner"; "feasibility_score"; "target_user"] /\
     dict_get (codes f) m = None) ->
  exists f', In f' ["rank"; "trend_title"; "one_liner"; "feasibility_score"; "target_user"] /\
    show_ideas ideas = Raise (PyError "KeyError" ("'" ++ f' ++ "'")).
Proof.
  intros ideas Hd. induction Hd as [|i ideas (m0 & ->) _ IH]; intros (m & f & Hin & Hf & Hm);
    [destruct Hin|].
  cbn [show_ideas]. destruct (show_idea (JObj m0)) as [[]|x] eqn:S.
  - destruct Hin as [Eq|Hin].
    + injection Eq as <-. destruct (show_idea_missing _ _ Hf Hm) as (f' & _ & S'). congruence.
    + apply IH. eauto.
  - assert (Hx : exists f', In f' ["rank"; "trend_title"; "one_liner"; "feasibility_score"; "target_user"]
                  /\ x = PyError "KeyError" ("'" ++ f' ++ "'")).
    { unfold show_idea, getitem in S.
      destruct (dict_get (codes "rank") m0);
        [|inversion S; exists "rank"; split; [cbn; auto | reflexivity]].
      destruct (dict_get (codes "trend_title") m0);
        [|inversion S; exists "trend_title"; split; [cbn; auto | reflexivity]].
      destruct (dict_get (codes "one_liner") m0);
        [|inversion S; exists "one_liner"; split; [cbn; auto 6 | reflexivity]].
      destruct (dict_get (codes "feasibility_score") m0);
        [|inversion S; exists "feasibility_score"; split; [cbn; auto 6 | reflexivity]].
      destruct (dict_get (codes "target_user") m0);
        [|inversion S; exists "target_user"; split; [cbn; auto 6 | reflexivity]].
      discriminate. }
    destruct Hx as (f' & Hf' & ->). eauto.
Qed.

Lemma print_trends_ok : forall l,
  print_trends l = Ok tt <-> Forall (fun x => exists m, x = JObj m) l.
Proof.
  induction l as [|x l IH]; cbn.
  - split; auto.
  - destruct x; cbn; split; intros H; try discriminate;
      try (inversion H as [|? ? (m & Hm) _]; discriminate).
    + constructor; [eauto | apply IH; exact H].
    + inversion H; subst. apply IH. assumption.
Qed.

(** ** Pre-flight checks *)

(** X1.  A missing [ANTHROPIC_API_KEY] makes both modes exit with the
    key message before anything happens, and a configuration file that
    cannot be loaded raises its error at the same point: no ledger row, no
    Agent Executor run, no input read. *)
Theorem preflight_failures_change_nothing : forall e topic trends s,
  (api_key_set e = false ->
     run_pipeline e topic s =
       (Raise (SystemExit "Error: ANTHROPIC_API_KEY is not set. Add it to .env or your environment."), s) /\
     dry_run e trends s =
       (Raise (SystemExit "Error: ANTHROPIC_API_KEY is not set. Add it to .env or your environment."), s)) /\
  (forall x, api_key_set e = true -> config_exn e = Some x ->
     run_pipeline e topic s = (Raise x, s) /\ dry_run e trends s = (Raise x, s)).
Proof.
  intros e topic trends s. split.
  - intros Hk. unfold run_pipeline, dry_run, start_phase, check_api_key, bind. rewrite Hk.
    split; reflexivity.
  - intros x Hk Hc. unfold run_pipeline, dry_run, start_phase, check_api_key, load_config, bind.
    rewrite Hk, Hc. split; reflexivity.
Qed.

(** ** The exception handlers of [_run_pipeline] *)

(** X2.  When the [try] block raises, an [Exception] with message [msg]
    ends the process with [Pipeline error: msg] and a [KeyboardInterrupt]
    with [\nInterrupted.], and in both cases the run's row is finished with
    status [error] and error [msg] (resp. [KeyboardInterrupt]); a
    [SystemExit] passes through both handlers untouched. *)
Theorem run_pipeline_records_exception : forall e topic s0 run s1 x s2,
  start_phase e topic s0 = (Ok run, s1) ->
  pipeline_body e run s1 = (Raise x, s2) ->
  (forall c msg, x = PyError c msg ->
     fst (run_pipeline e topic s0) = Raise (SystemExit ("Pipeline error: " ++ msg)) /\
     exists row, find_run run (ledger (snd (run_pipeline e topic s0))) = Some row /\
       run_status row = "error" /\ run_error row = Some msg /\ run_finished row = true) /\
  (x = KeyboardInterrupt ->
     fst (run_pipeline e topic s0) = Raise (SystemExit (String (ascii_of_nat 10) "Interrupted.")) /\
     exists row, find_run run (ledger (snd (run_pipeline e topic s0))) = Some row /\
       run_status row = "error" /\ run_error row = Some "KeyboardInterrupt" /\
       run_finished row = true) /\
  (forall m, x = SystemExit m -> run_pipeline e topic s0 = (Raise (SystemExit m), s2)).
Proof.
  intros e topic s0 run s1 x s2 H1 H2.
  destruct (start_phase_row _ _ _ _ _ H1) as [_ R1].
  assert (R2 : find_run run (ledger s2) <> None).
  { refine (keeps_body (fun l => find_run run l <> None) e run _ _ _ _ H2 R1).
    intros l st err _ Hl. apply find_run_map_finish. exact Hl. }
  assert (E : run_pipeline e topic s0 = handlers run x s2).
  { unfold run_pipeline, bind at 1. rewrite H1. unfold try_except. rewrite H2. reflexivity. }
  rewrite E. split; [|split].
  - intros c msg ->. cbn. split; [reflexivity|].
    destruct (find_run_finish run "error" (Some msg) _ R2) as (row & F & St & Er & Fi).
    exists row. auto.
  - intros ->. cbn. split; [reflexivity|].
    destruct (find_run_finish run "error" (Some "KeyboardInterrupt") _ R2) as (row & F & St & Er & Fi).
    exists row. auto.
  - intros m ->. reflexivity.
Qed.

(** ** The complete run *)

(** X3.  When the operator approves the design and the Builder run
    succeeds, the run exits normally, its row is finished with status
    [success] and no error, and the only further effects are the Builder
    run and, if [output/<slug>] exists, [git_init] of the directory named
    after the [trend_title] of the chosen idea (the fallback name
    [project] is never used, since the selection gate has read that
    field). *)
Theorem run_pipeline_success : forall e topic s0 run s1 chosen s2 s3,
  start_phase e topic s0 = (Ok run, s1) ->
  until_approval e s1 = (Ok chosen, s2) ->
  prompt_design_approval s2 = (Ok true, s3) ->
  crew_exn e Builder = None ->
  exists t s4,
    getitem chosen "trend_title" = Ok t /\
    run_pipeline e topic s0 = (Ok tt, s4) /\
    trace s4 = (trace s3 ++ RunCrew Builder ::
                  (if project_dir_exists e then [GitInit ("output/" ++ slugify e t)] else []))%list /\
    exists row, find_run run (ledger s4) = Some row /\ run_status row = "success" /\
      run_error row = None /\ run_finished row = true.
Proof.
  intros e topic s0 run s1 chosen s2 s3 H1 H2 H3 Hb.
  destruct (start_phase_row _ _ _ _ _ H1) as [_ R1].
  destruct (quiet_until_approval e _ _ _ H2) as [L2 _].
  destruct (quiet_prompt_design_approval _ _ _ H3) as [L3 _].
  destruct (until_approval_title _ _ _ _ H2) as [t Ht].
  assert (Hm : exists m, chosen = JObj m /\ dict_get (codes "trend_title") m = Some t).
  { destruct chosen as [| | | | | |d]; try (cbn in Ht; discriminate).
    unfold getitem in Ht. destruct (dict_get (codes "trend_title") d) eqn:D; inversion Ht; subst.
    eauto. }
  destruct Hm as (m & -> & Hd).
  assert (R3 : find_run run (ledger s3) <> None) by congruence.
  exists t.
  assert (E : run_pipeline e topic s0 =
    try_except (bind (stage_builder e (JObj m)) (fun _ => finish_run run "success" None))
      (handlers run) s3).
  { unfold run_pipeline, bind at 1. rewrite H1.
    unfold try_except, pipeline_body, bind at 1. rewrite H2.
    unfold bind at 1. rewrite H3. reflexivity. }
  rewrite E. unfold try_except, stage_builder, run_crew, bind, emit, emit_all. rewrite Hb, Hd.
  destruct (project_dir_exists e); cbn.
  - eexists. split; [exact Ht|]. split; [reflexivity|]. cbn.
    split; [rewrite <- app_assoc; reflexivity|].
    destruct (find_run_finish run "success" None _ R3) as (row & F & St & Er & Fi). eauto.
  - eexists. split; [exact Ht|]. split; [reflexivity|]. cbn. split; [reflexivity|].
    destruct (find_run_finish run "success" None _ R3) as (row & F & St & Er & Fi). eauto.
Qed.

(** ** The two gates *)

(** X4.  The design-approval gate lower-cases and strips each answer: it
    skips every line that is none of [y], [yes], [n], [no], returns
    [True] for the first [y] or [yes] and [False] for the first [n] or
    [no], and consumes the input up to that line and no further. *)
Theorem approval_gate_answers : forall s bad c rest,
  Forall (fun x => exists t, x = Line t /\ ~ In (py_lower (py_strip t)) ["y"; "yes"; "n"; "no"]) bad ->
  stdin s = (bad ++ Line c :: rest)%list ->
  (In (py_lower (py_strip c)) ["y"; "yes"] -> prompt_design_approval s = (Ok true, set_stdin s rest)) /\
  (In (py_lower (py_strip c)) ["n"; "no"] -> prompt_design_approval s = (Ok false, set_stdin s rest)).
Proof.
  intros s bad c rest Hb Hs. unfold prompt_design_approval. rewrite Hs, approval_loop_skip by exact Hb.
  cbn [approval_loop]. split.
  - intros [E|[E|[]]]; rewrite <- E; reflexivity.
  - intros [E|[E|[]]]; rewrite <- E; reflexivity.
Qed.

Lemma approval_gate_answers_witness :
  prompt_design_approval (init [Line "maybe"; Line " YES "; Line "n"]) =
    (Ok true, set_stdin (init [Line "maybe"; Line " YES "; Line "n"]) [Line "n"]).
Proof.
  refine (proj1 (approval_gate_answers (init [Line "maybe"; Line " YES "; Line "n"])
                   [Line "maybe"] " YES " [Line "n"] _ _) _).
  - constructor; [|constructor]. exists "maybe". split; [reflexivity|].
    vm_compute. intros [H|[H|[H|[H|[]]]]]; discriminate.
  - reflexivity.
  - vm_compute. auto.
Defined.

(** X5.  Both gates stop at the end of the input with [EOFError] and at
    a Ctrl-C with [KeyboardInterrupt], after skipping the answers they do
    not accept; they write nothing and leave the ledger as it is. *)
Theorem gates_stop_on_eof_or_interrupt : forall e ideas s bad1 bad2 fin,
  show_ideas ideas = Ok tt ->
  Forall rejected bad1 ->
  Forall (fun x => exists t, x = Line t /\ ~ In (py_lower (py_strip t)) ["y"; "yes"; "n"; "no"]) bad2 ->
  (fin = [] \/ exists rest, fin = CtrlC :: rest) ->
  (stdin s = (bad1 ++ fin)%list ->
     prompt_idea_choice e (JArr ideas) s =
       (Raise (match fin with [] => eof_error | _ => KeyboardInterrupt end), set_stdin s (tl fin))) /\
  (stdin s = (bad2 ++ fin)%list ->
     prompt_design_approval s =
       (Raise (match fin with [] => eof_error | _ => KeyboardInterrupt end), set_stdin s (tl fin))).
Proof.
  intros e ideas s bad1 bad2 fin Hs H1 H2 Hf. split.
  - intros Hin. unfold prompt_idea_choice, bind, lift. cbn [py_iter]. rewrite Hs, Hin.
    rewrite choice_loop_skip by exact H1.
    destruct Hf as [->|[rest ->]]; reflexivity.
  - intros Hin. unfold prompt_design_approval. rewrite Hin, approval_loop_skip by exact H2.
    destruct Hf as [->|[rest ->]]; reflexivity.
Qed.

Lemma gates_stop_on_eof_or_interrupt_witness :
  prompt_idea_choice reject_env (JArr (ideas_of three_ideas)) (init [Line "4"; CtrlC]) =
    (Raise KeyboardInterrupt, set_stdin (init [Line "4"; CtrlC]) []) /\
  prompt_design_approval (init [Line "ok"]) = (Raise eof_error, set_stdin (init [Line "ok"]) []).
Proof.
  split.
  - refine (proj1 (gates_stop_on_eof_or_interrupt reject_env (ideas_of three_ideas)
                     (init [Line "4"; CtrlC]) [Line "4"] [] [CtrlC] _ _ _ _) _).
    + vm_compute. reflexivity.
    + constructor; [|constructor]. exists "4". split; reflexivity.
    + constructor.
    + right. exists []. reflexivity.
    + reflexivity.
  - refine (proj2 (gates_stop_on_eof_or_interrupt reject_env [] (init [Line "ok"])
                     [] [Line "ok"] [] _ _ _ _) _).
    + reflexivity.
    + constructor.
    + constructor; [|constructor]. exists "ok". split; [reflexivity|].
      vm_compute. intros [H|[H|[H|[H|[]]]]]; discriminate.
    + left. reflexivity.
    + reflexivity.
Defined.

(** X6.  When the ranked list holds dicts and one of them lacks one of
    the five displayed fields, the selection gate raises [KeyError] for a
    missing field while listing the ideas: before any input is read and
    before anything is written. *)
Theorem idea_choice_missing_field : forall e ideas s,
  Forall (fun i => exists m, i = JObj m) ideas ->
  (exists m f, In (JObj m) ideas /\
     In f ["rank"; "trend_title"; "one_liner"; "feasibility_score"; "target_user"] /\
     dict_get (codes f) m = None) ->
  exists f, In f ["rank"; "trend_title"; "one_liner"; "feasibility_score"; "target_user"] /\
    prompt_idea_choice e (JArr ideas) s = (Raise (PyError "KeyError" ("'" ++ f ++ "'")), s).
Proof.
  intros e ideas s Hd Hm. destruct (show_ideas_missing _ Hd Hm) as (f & Hf & S).
  exists f. split; [exact Hf|]. unfold prompt_idea_choice, bind, lift. cbn [py_iter].
  rewrite S. reflexivity.
Qed.

Lemma idea_choice_missing_field_witness :
  exists f, In f ["rank"; "trend_title"; "one_liner"; "feasibility_score"; "target_user"] /\
    prompt_idea_choice reject_env (JArr (ideas_of (critic_text [idea_text "1" "Alpha"; "{" ++ jstr "rank" ++ ": 2}"])))
      (init [Line "1"]) = (Raise (PyError "KeyError" ("'" ++ f ++ "'")), init [Line "1"]).
Proof.
  apply idea_choice_missing_field.
  - vm_compute. repeat constructor; eexists; reflexivity.
  - exists [(codes "rank", JInt 2)], "trend_title". split; [vm_compute; auto|].
    split; [cbn; auto|]. reflexivity.
Defined.

(** ** The ledger *)

(** X7.  A full run either leaves the ledger as it was (it stopped before
    [start_run]) or appends exactly one row: the previous rows are left
    unchanged, the new row has the next id and the run's topic, and its
    final status is [running], [success] or [error]. *)
Theorem run_pipeline_one_row : forall e topic s r s',
  ids_below (ledger s) ->
  run_pipeline e topic s = (r, s') ->
  ledger s' = ledger s \/ run_appended (ledger s) topic (ledger s').
Proof.
  intros e topic s r s' Hb H. unfold run_pipeline, bind at 1 in H.
  destruct (start_phase e topic s) as [[run|x] s1] eqn:E.
  - right. unfold start_phase, check_api_key, load_config, bind in E.
    destruct (api_key_set e); [|discriminate]. destruct (config_exn e); [discriminate|].
    cbn in E. inversion E; subst run; clear E.
    assert (A1 : run_appended (ledger s) topic (ledger s1)).
    { subst s1. cbn. eexists. split; [reflexivity|]. cbn. auto. }
    refine (keeps_try _ _ _ _ _ _ _ _ _ H A1).
    + apply keeps_body. intros l st err Hst Hl. apply run_appended_finish; auto.
    + apply keeps_handlers. intros l st err Hst Hl. apply run_appended_finish; auto.
  - left. unfold start_phase, check_api_key, load_config, bind in E.
    inversion H; subst.
    destruct (api_key_set e); [destruct (config_exn e)|]; cbn in E; inversion E; reflexivity.
Qed.

Lemma run_pipeline_one_row_witness :
  ids_below (ledger (init [Line "1"; Line "n"])) /\
  (ledger (snd (run_pipeline reject_env None (init [Line "1"; Line "n"]))) =
     ledger (init [Line "1"; Line "n"]) \/
   run_appended (ledger (init [Line "1"; Line "n"])) None
     (ledger (snd (run_pipeline reject_env None (init [Line "1"; Line "n"]))))).
Proof.
  assert (Hb : ids_below (ledger (init [Line "1"; Line "n"]))) by constructor.
  split; [exact Hb|].
  exact (run_pipeline_one_row reject_env None (init [Line "1"; Line "n"]) _ _ Hb
           (surjective_pairing _)).
Defined.

Lemma run_pipeline_success_witness :
  exists t s4,
    getitem (chosen_of three_ideas 1) "trend_title" = Ok t /\
    run_pipeline reject_env None (init [Line "1"; Line "y"]) = (Ok tt, s4) /\
    trace s4 = (trace (snd (prompt_design_approval
                  (snd (until_approval reject_env
                     {| ledger := [running_row 1]; stdin := [Line "1"; Line "y"]; trace := [] |}))))
                ++ RunCrew Builder ::
                (if project_dir_exists reject_env
                 then [GitInit ("output/" ++ slugify reject_env t)] else []))%list /\
    exists row, find_run 1 (ledger s4) = Some row /\ run_status row = "success" /\
      run_error row = None /\ run_finished row = true.
Proof.
  pose (s1 := {| ledger := [running_row 1]; stdin := [Line "1"; Line "y"]; trace := [] |}).
  pose (s2 := snd (until_approval reject_env s1)).
  pose (s3 := snd (prompt_design_approval s2)).
  refine (run_pipeline_success reject_env None (init [Line "1"; Line "y"]) 1 s1
            (chosen_of three_ideas 1) s2 s3 _ _ _ _).
  - vm_compute. reflexivity.
  - vm_compute. reflexivity.
  - vm_compute. reflexivity.
  - reflexivity.
Defined.

Lemma run_pipeline_records_exception_witness :
  start_phase scout_fails_env None (init []) = (Ok 1, {| ledger := [running_row 1]; stdin := []; trace := [] |}) /\
  pipeline_body scout_fails_env 1 {| ledger := [running_row 1]; stdin := []; trace := [] |} =
    (Raise (PyError "RuntimeError" "rate limited"),
     {| ledger := [running_row 1]; stdin := []; trace := [RunCrew Scout] |}) /\
  fst (run_pipeline scout_fails_env None (init [])) =
    Raise (SystemExit ("Pipeline error: " ++ "rate limited")) /\
  exists row, find_run 1 (ledger (snd (run_pipeline scout_fails_env None (init [])))) = Some row /\
    run_status row = "error" /\ run_error row = Some "rate limited" /\ run_finished row = true.
Proof.
  assert (H1 : start_phase scout_fails_env None (init []) =
                 (Ok 1, {| ledger := [running_row 1]; stdin := []; trace := [] |}))
    by (vm_compute; reflexivity).
  assert (H2 : pipeline_body scout_fails_env 1 {| ledger := [running_row 1]; stdin := []; trace := [] |} =
    (Raise (PyError "RuntimeError" "rate limited"),
     {| ledger := [running_row 1]; stdin := []; trace := [RunCrew Scout] |}))
    by (vm_compute; reflexivity).
  split; [exact H1|]. split; [exact H2|].
  exact (proj1 (run_pipeline_records_exception scout_fails_env None (init []) 1 _ _ _ H1 H2)
           "RuntimeError" "rate limited" eq_refl).
Defined.

(** ** The preview run *)

(** X8.  The preview run never touches the ledger and reads no input;
    its only Agent Executor run is the Scout's. *)
Theorem dry_run_effects : forall e trends s r s',
  dry_run e trends s = (r, s') ->
  ledger s' = ledger s /\ stdin s' = stdin s /\
  (trace s' = trace s \/ trace s' = (trace s ++ [RunCrew Scout])%list).
Proof.
  intros e trends s r s' H.
  unfold dry_run, check_api_key, load_config, stage_scout, run_crew, bind, emit in H.
  destruct (api_key_set e); cbn in H; [|inversion H; auto].
  destruct (config_exn e); cbn in H; [inversion H; auto|].
  destruct (crew_exn e Scout); cbn in H; [inversion H; subst; cbn; auto|].
  destruct trends as [t|]; cbn in H; [|inversion H; subst; cbn; auto].
  unfold parse_json_file, lift in H. destruct (String.eqb (py_strip t) EmptyString); cbn in H;
    [inversion H; subst; cbn; auto|].
  destruct (parse_json _ _ (py_strip t)) as [[v|]|x]; cbn in H; [|inversion H; subst; cbn; auto
                                                                |inversion H; subst; cbn; auto].
  destruct (truthy e v); cbn in H; [|inversion H; subst; cbn; auto].
  destruct (py_iter v); cbn in H; inversion H; subst; cbn; auto.
Qed.

Lemma dry_run_effects_witness :
  ledger (snd (dry_run reject_env (Some trend_list_text) (init [Line "1"]))) = ledger (init [Line "1"]) /\
  stdin (snd (dry_run reject_env (Some trend_list_text) (init [Line "1"]))) = stdin (init [Line "1"]) /\
  (trace (snd (dry_run reject_env (Some trend_list_text) (init [Line "1"]))) = trace (init [Line "1"]) \/
   trace (snd (dry_run reject_env (Some trend_list_text) (init [Line "1"]))) =
     (trace (init [Line "1"]) ++ [RunCrew Scout])%list).
Proof.
  exact (dry_run_effects reject_env (Some trend_list_text) (init [Line "1"]) _ _ (surjective_pairing _)).
Defined.

(** X9.  Once the Scout has run, the preview succeeds when the trend
    file is missing or holds a falsy value, and otherwise exactly when
    the value is a list of dicts; a non-empty dict (what the Critic's own
    [{"top3": ...}] wrapping would give) fails with [AttributeError]
    because iterating it yields its [str] keys. *)
Theorem dry_run_outcome : forall e s,
  api_key_set e = true -> config_exn e = None -> crew_exn e Scout = None ->
  fst (dry_run e None s) = Ok tt /\
  (forall t v, py_strip t <> EmptyString ->
     parse_json (recursion_limit e) (int_max_str_digits e) (py_strip t) = Ok (Some v) ->
     (fst (dry_run e (Some t) s) = Ok tt <->
        truthy e v = false \/ exists l, v = JArr l /\ Forall (fun x => exists m, x = JObj m) l) /\
     (forall k x m, v = JObj ((k, x) :: m) ->
        fst (dry_run e (Some t) s) =
          Raise (PyError "AttributeError" "'str' object has no attribute 'get'"))).
Proof.
  intros e s Hk Hc Hs.
  unfold dry_run, check_api_key, load_config, stage_scout, run_crew, bind, emit.
  rewrite Hk, Hc, Hs. cbn. split; [reflexivity|].
  intros t v Ht Hp. unfold parse_json_file, lift.
  destruct (String.eqb_spec (py_strip t) EmptyString) as [E|_]; [contradiction|].
  rewrite Hp. cbn. split.
  - destruct (truthy e v) eqn:Tv; cbn.
    + destruct v as [| | | |cs|l|m]; cbn.
      * discriminate.
      * split; [intros H; discriminate | intros [H|(l & H & _)]; discriminate].
      * split; [intros H; discriminate | intros [H|(l & H & _)]; discriminate].
      * split; [intros H; discriminate | intros [H|(l & H & _)]; discriminate].
      * destruct cs; [discriminate|]. cbn.
        split; [intros H; discriminate | intros [H|(l & H & _)]; discriminate].
      * rewrite print_trends_ok. split; [eauto|].
        intros [H|(l' & H & F)]; [discriminate|]. injection H as <-. exact F.
      * destruct m as [|[k x] m]; [discriminate|]. cbn.
        split; [intros H; discriminate | intros [H|(l & H & _)]; discriminate].
    + split; auto.
  - intros k x m ->. reflexivity.
Qed.

Lemma dry_run_outcome_witness :
  api_key_set reject_env = true /\ config_exn reject_env = None /\ crew_exn reject_env Scout = None /\
  fst (dry_run reject_env (Some prose_trend_text) (init [])) = Ok tt /\
  fst (dry_run reject_env (Some three_ideas) (init [])) =
    Raise (PyError "AttributeError" "'str' object has no attribute 'get'").
Proof.
  assert (H := dry_run_outcome reject_env (init []) eq_refl eq_refl eq_refl).
  split; [reflexivity|]. split; [reflexivity|]. split; [reflexivity|]. split.
  - refine (proj2 (proj1 (proj2 H prose_trend_text (parsed_of prose_trend_text) _ _)) _).
    + vm_compute. discriminate.
    + vm_compute. reflexivity.
    + right. eexists. split; [vm_compute; reflexivity|].
      repeat constructor; eexists; reflexivity.
  - refine (proj2 (proj2 H three_ideas (parsed_of three_ideas) _ _) _ _ _ _).
    + vm_compute. discriminate.
    + vm_compute. reflexivity.
    + vm_compute. reflexivity.
Defined.

End PipelineExtras.

(** * Further properties of the adapters and the message patch *)
Module AdapterExtras.
Import Json Adapters Patches ExtraScenarios.

Lemma strip_trailing_rev_spec : forall r,
  Forall (fun x => exists m, x = JObj m) r ->
  exists q r', r = (q ++ r')%list /\ Forall (fun x => is_assistant x = Ok true) q /\
    strip_trailing_rev r = Ok r' /\
    (r' = [] \/ exists y r'', r' = y :: r'' /\ is_assistant y = Ok false).
Proof.
  intros r H. induction H as [|x r (m & ->) _ IH].
  - exists [], []. cbn. auto.
  - cbn [strip_trailing_rev]. destruct (is_assistant (JObj m)) as [[|]|x] eqn:A.
    + destruct IH as (q & r' & -> & Fq & S & L). exists (JObj m :: q), r'.
      split; [reflexivity|]. split; [constructor; auto|]. auto.
    + exists [], (JObj m :: r). cbn. split; [reflexivity|]. split; [constructor|].
      split; [reflexivity|]. right. eauto.
    + discriminate.
Qed.

(** X11.  On a list of message dicts, the patch hands the original
    formatter the longest prefix that does not end with an assistant
    message: exactly the trailing run of assistant messages is removed,
    and earlier assistant messages are kept.  A value that is not a list
    is passed on unchanged. *)
Theorem patched_format_strips_trailing_assistant : forall A (original : json -> res A),
  (forall l, Forall (fun x => exists m, x = JObj m) l ->
     exists p q, l = (p ++ q)%list /\ Forall (fun x => is_assistant x = Ok true) q /\
       (p = [] \/ exists p' y, p = (p' ++ [y])%list /\ is_assistant y = Ok false) /\
       patched_format original (JArr l) = original (JArr p)) /\
  (forall v, (forall l, v <> JArr l) -> patched_format original v = original v).
Proof.
  intros A original. split.
  - intros l H. apply Forall_rev in H.
    destruct (strip_trailing_rev_spec _ H) as (q & r' & E & Fq & S & L).
    exists (rev r'), (rev q). split.
    { rewrite <- (rev_involutive l), E, rev_app_distr. reflexivity. }
    split; [apply Forall_rev; exact Fq|]. split.
    + destruct L as [->|(y & r'' & -> & Y)]; [left; reflexivity|].
      right. exists (rev r''), y. split; [reflexivity | exact Y].
    + unfold patched_format. rewrite S. reflexivity.
  - intros v Hv. destruct v; try reflexivity. exfalso. exact (Hv items eq_refl).
Qed.

Lemma patched_format_strips_trailing_assistant_witness :
  exists p q, max_iter_messages = (p ++ q)%list /\
    Forall (fun x => is_assistant x = Ok true) q /\
    (p = [] \/ exists p' y, p = (p' ++ [y])%list /\ is_assistant y = Ok false) /\
    patched_format (fun v => Ok v) (JArr max_iter_messages) = Ok (JArr p).
Proof.
  apply (proj1 (patched_format_strips_trailing_assistant json (fun v => Ok v)) max_iter_messages).
  repeat constructor; eexists; reflexivity.
Defined.

Lemma str_app_empty_r : forall s, s ++ EmptyString = s.
Proof. induction s as [|c s IH]; cbn; congruence. Qed.

Lemma str_app_assoc : forall a b c, (a ++ b) ++ c = a ++ (b ++ c).
Proof. induction a as [|x a IH]; intros b c; cbn; congruence. Qed.

Lemma str_concat_cons : forall sep x l, l <> [] ->
  String.concat sep (x :: l) = x ++ sep ++ String.concat sep l.
Proof. intros sep x [|y l] H; [contradiction | reflexivity]. Qed.

Lemma split_comma_aux_concat : forall s cur,
  String.concat "," (split_comma_aux cur s) = cur ++ s /\
  length (split_comma_aux cur s) = S (length (filter (fun c => is_char c 44) (list_ascii_of_string s))).
Proof.
  induction s as [|c s IH]; intros cur; cbn.
  - rewrite str_app_empty_r. auto.
  - destruct (is_char c 44) eqn:C.
    + destruct (IH EmptyString) as [H1 H2]. split.
      * assert (Hne : split_comma_aux EmptyString s <> []).
        { intros Hn. rewrite Hn in H2. discriminate. }
        rewrite (str_concat_cons _ _ _ Hne), H1.
        unfold is_char, code in C. apply N.eqb_eq in C.
        replace c with ","%char by (rewrite <- (ascii_N_embedding c), C; reflexivity).
        reflexivity.
      * cbn. rewrite H2. reflexivity.
    + destruct (IH (cur ++ String c EmptyString)) as [H1 H2]. split; [|exact H2].
      rewrite H1, str_app_assoc. reflexivity.
Qed.

(** X12.  [subreddits.split(",")] loses nothing: joining its pieces with
    commas gives the argument back, and there is one piece more than there
    are commas (an empty or trailing piece is kept). *)
Theorem split_comma_round_trip : forall s,
  String.concat "," (split_comma s) = s /\
  length (split_comma s) = S (length (filter (fun c => is_char c 44) (list_ascii_of_string s))).
Proof. intros s. exact (split_comma_aux_concat s EmptyString). Qed.

(** X13.  When the snscrape module yields its tweets (without raising
    before the limit is reached), [TwitterTool] returns at most [limit]
    tweets from it and never runs the subprocess fallback. *)
Theorem twitter_module_path_bounded : forall m limit tweets,
  fetch_via_module m limit = Done tweets ->
  (length tweets <= limit)%nat /\
  forall p, twitter_run m p limit = (map (Item "twitter") tweets, true).
Proof.
  intros m limit tweets H. unfold twitter_run. rewrite H. split; [|reflexivity].
  destruct m as [|ts f]; unfold fetch_via_module in H; [discriminate|].
  destruct (Nat.ltb_spec limit (length ts)).
  - inversion H; subst. rewrite length_firstn. lia.
  - destruct f; inversion H; subst. lia.
Qed.

Lemma twitter_module_path_bounded_witness :
  (length ["a"; "b"] <= 2)%nat /\
  twitter_run (ModStream ["a"; "b"; "c"] (Some "blocked")) (SubRaises "no python") 2 =
    (map (Item "twitter") ["a"; "b"], true).
Proof.
  destruct (twitter_module_path_bounded (ModStream ["a"; "b"; "c"] (Some "blocked")) 2 ["a"; "b"]
              eq_refl) as [H1 H2].
  split; [exact H1 | apply H2].
Defined.

End AdapterExtras.

(** ** Facts about the project writer *)
Module FileWriterExtras.
Import Json FileWriter FileWriterScenarios.
Local Open Scope list_scope.

Lemma fw_codes_eqb_iff a b : codes_eqb a b = true <-> a = b.
Proof.
  revert b; induction a as [|x a IH]; intros [|y b]; cbn; try (split; congruence).
  rewrite andb_true_iff, N.eqb_eq, IH.
  split; [intros [-> ->]; reflexivity | intros H; injection H; auto].
Qed.

Lemma fw_key_eqb_iff a b : key_eqb a b = true <-> a = b.
Proof.
  revert b; induction a as [|x a IH]; intros [|y b]; cbn; try (split; congruence).
  rewrite andb_true_iff, fw_codes_eqb_iff, IH.
  split; [intros [-> ->]; reflexivity | intros H; injection H; auto].
Qed.

Lemma fw_key_eqb_refl a : key_eqb a a = true.
Proof. apply fw_key_eqb_iff; reflexivity. Qed.

Lemma fw_key_eqb_false a b : key_eqb a b = false <-> a <> b.
Proof.
  split.
  - intros H E; apply fw_key_eqb_iff in E; congruence.
  - intros H; destruct (key_eqb a b) eqn:E; [apply fw_key_eqb_iff in E; congruence | reflexivity].
Qed.

Lemma fw_find_set k k' n f :
  fs_find k' (fs_set k n f) = if key_eqb k' k then Some n else fs_find k' f.
Proof.
  induction f as [|[k0 n0] f IH]; cbn.
  - destruct (key_eqb k' k); reflexivity.
  - destruct (key_eqb k k0) eqn:E.
    + apply fw_key_eqb_iff in E; subst k0; cbn.
      destruct (key_eqb k' k); reflexivity.
    + cbn. destruct (key_eqb k' k0) eqn:E1.
      * apply fw_key_eqb_iff in E1; subst k0.
        rewrite (proj2 (fw_key_eqb_false k' k)); [reflexivity|].
        intros ->; rewrite fw_key_eqb_refl in E; discriminate.
      * rewrite IH; reflexivity.
Qed.

Lemma fw_lookup_set k k' n f : k <> [] ->
  lookup k' (fs_set k n f) = if key_eqb k' k then Some n else lookup k' f.
Proof.
  intros Hk; destruct k' as [|c k']; cbn [lookup].
  - destruct k; [congruence|reflexivity].
  - apply fw_find_set.
Qed.

Lemma fw_lookup_set_same k n f : k <> [] -> lookup k (fs_set k n f) = Some n.
Proof. intros Hk; rewrite fw_lookup_set, fw_key_eqb_refl by exact Hk; reflexivity. Qed.

Lemma fw_lookup_set_other k k' n f : k <> [] -> k' <> k ->
  lookup k' (fs_set k n f) = lookup k' f.
Proof. intros Hk Hne; rewrite fw_lookup_set, (proj2 (fw_key_eqb_false _ _) Hne) by exact Hk; reflexivity. Qed.

Lemma fw_set_set k v w f : fs_set k v (fs_set k w f) = fs_set k v f.
Proof.
  induction f as [|[k0 n0] f IH]; cbn.
  - rewrite fw_key_eqb_refl; reflexivity.
  - destruct (key_eqb k k0) eqn:E; cbn; rewrite E; [reflexivity | rewrite IH; reflexivity].
Qed.

Lemma fw_set_found k n f : fs_find k f = Some n -> fs_set k n f = f.
Proof.
  induction f as [|[k0 n0] f IH]; cbn; [discriminate|].
  destruct (key_eqb k k0); [congruence | intros H; rewrite IH by exact H; reflexivity].
Qed.

Lemma fw_dirs_kept_refl f : dirs_kept f f.
Proof. intros k H; exact H. Qed.

Lemma fw_dirs_kept_trans f1 f2 f3 : dirs_kept f1 f2 -> dirs_kept f2 f3 -> dirs_kept f1 f3.
Proof. intros H1 H2 k H; auto. Qed.

Lemma fw_dirs_kept_set k n f : k <> [] -> lookup k f <> Some Dir -> dirs_kept f (fs_set k n f).
Proof.
  intros Hk Hd k' H; rewrite fw_lookup_set_other; [exact H | exact Hk | intros ->; congruence].
Qed.

Lemma fw_grows_dirs_kept f f' : grows f f' -> dirs_kept f f'.
Proof. intros [H _] k; apply H. Qed.

Lemma fw_grows_refl f : grows f f.
Proof. split; auto. Qed.

Lemma fw_grows_trans f1 f2 f3 : grows f1 f2 -> grows f2 f3 -> grows f1 f3.
Proof.
  intros [A1 B1] [A2 B2]; split; [auto|].
  intros k H; destruct (B1 k H) as [H1|H1]; [apply B2; exact H1 | right; apply A2; exact H1].
Qed.

Lemma fw_grows_set_dir k f : k <> [] -> lookup k f = None -> grows f (fs_set k Dir f).
Proof.
  intros Hk Hn; split.
  - intros k' n H; rewrite fw_lookup_set_other; [exact H | exact Hk | intros ->; congruence].
  - intros k' H; rewrite fw_lookup_set by exact Hk.
    destruct (key_eqb k' k); [right; reflexivity | left; exact H].
Qed.

Section Kept.
Variable cwd : list bytes.

Lemma fw_walk_kept f f' start cs r : dirs_kept f f' ->
  walk f start cs = KOk r -> walk f' start cs = KOk r.
Proof.
  intros Hk; revert start; induction cs as [|c cs IH]; intros start; cbn; [auto|].
  destruct (is_dot c); [apply IH|].
  destruct (is_dotdot c); [apply IH|].
  destruct (lookup (start ++ [c]) f) as [[|d]|] eqn:E; try discriminate.
  rewrite (Hk _ E); apply IH.
Qed.

Lemma fw_resolve_kept f f' p x : dirs_kept f f' ->
  resolve_parent cwd f p = KOk x -> resolve_parent cwd f' p = KOk x.
Proof.
  intros Hk; unfold resolve_parent; destruct p as [|c p']; [auto|].
  destruct (rev (split_comps [] (c :: p'))) as [|l ri]; [auto|].
  destruct (walk f _ (rev ri)) eqn:E; [|discriminate].
  rewrite (fw_walk_kept _ _ _ _ _ Hk E); auto.
Qed.

Lemma fw_is_dir_kept f f' p : dirs_kept f f' -> is_dir cwd p f = true -> is_dir cwd p f' = true.
Proof.
  intros Hk; unfold is_dir; destruct (fs_path p) as [b|]; [|auto].
  unfold k_stat; destruct (resolve_parent cwd f b) as [[cur [l|]]|e] eqn:E; try discriminate;
    rewrite (fw_resolve_kept _ _ _ _ Hk E); [|auto].
  destruct (is_dot l || is_dotdot l); [auto|].
  destruct (lookup (cur ++ [l]) f) as [[|d]|] eqn:E2; try discriminate.
  rewrite (Hk _ E2); auto.
Qed.

Lemma fw_app_cons_nonempty (a : list bytes) x : a ++ [x] <> [].
Proof. destruct a; discriminate. Qed.

Lemma fw_os_mkdir_ok p f f' : os_mkdir cwd p f = WOk f' -> grows f f' /\ is_dir cwd p f' = true.
Proof.
  unfold os_mkdir, is_dir; destruct (fs_path p) as [b|] eqn:Hp; [|discriminate].
  unfold k_mkdir; destruct (resolve_parent cwd f b) as [[cur [l|]]|e] eqn:E; try discriminate.
  destruct (is_dot l || is_dotdot l) eqn:Hd; [discriminate|].
  destruct (lookup (cur ++ [l]) f) eqn:Hl; [discriminate|].
  intros H; injection H as <-.
  pose proof (fw_app_cons_nonempty cur l) as Hne.
  split; [apply fw_grows_set_dir; assumption|].
  unfold k_stat.
  rewrite (fw_resolve_kept f) with (x := (cur, Some l)); [| apply fw_dirs_kept_set; congruence | exact E].
  rewrite Hd, fw_lookup_set_same by exact Hne; reflexivity.
Qed.

Lemma fw_os_mkdir_exists p f : is_dir cwd p f = true -> os_mkdir cwd p f = WRaise (OSError EEXIST p).
Proof.
  unfold is_dir, os_mkdir; destruct (fs_path p) as [b|]; [|discriminate].
  unfold k_stat, k_mkdir; destruct (resolve_parent cwd f b) as [[cur [l|]]|e]; try discriminate; [|auto].
  destruct (is_dot l || is_dotdot l); [auto|].
  destruct (lookup (cur ++ [l]) f); [auto|discriminate].
Qed.

Lemma fw_mkdir_once p f r f' : mkdir_once cwd p f = (r, f') ->
  grows f f' /\ (r = WOk tt -> is_dir cwd (str p) f' = true).
Proof.
  unfold mkdir_once; destruct (os_mkdir cwd (str p) f) as [f1|x] eqn:E.
  - intros H; injection H as <- <-; apply fw_os_mkdir_ok in E; tauto.
  - destruct x as [e n| |]; [destruct e| |];
      try (intros H; injection H as <- <-; split; [apply fw_grows_refl | discriminate]);
      destruct (is_dir cwd (str p) f) eqn:D;
      intros H; injection H as <- <-; (split; [apply fw_grows_refl | auto; discriminate]).
Qed.

Lemma fw_mkdir_parents root rparts f r f' :
  mkdir_parents cwd root rparts f = (r, f') ->
  grows f f' /\ (r = WOk tt -> is_dir cwd (str {| proot := root; pparts := rev rparts |}) f' = true).
Proof.
  revert f r f'; induction rparts as [|x rp IH]; intros f r f'; cbn [mkdir_parents].
  all: set (p := {| proot := root; pparts := rev _ |}).
  all: destruct (os_mkdir cwd (str p) f) as [f1|xx] eqn:E;
    [intros H; injection H as <- <-; apply fw_os_mkdir_ok in E; tauto|].
  all: destruct xx as [e n| |];
    try (intros H; injection H as <- <-; split; [apply fw_grows_refl | discriminate]).
  all: destruct e;
    try (destruct (is_dir cwd (str p) f) eqn:D;
      intros H; injection H as <- <-; (split; [apply fw_grows_refl | auto; discriminate])).
  all: destruct (codes_eqb (str (parent p)) (str p));
    try (intros H; injection H as <- <-; split; [apply fw_grows_refl | discriminate]).
  destruct (mkdir_parents cwd root rp f) as [[u|y] f2] eqn:E2.
  - intros H; apply fw_mkdir_once in H.
    destruct (IH _ _ _ E2) as [G _]; destruct H as [G2 H2]; split; [eapply fw_grows_trans; eassumption | exact H2].
  - intros H; injection H as <- <-; destruct (IH _ _ _ E2) as [G _]; split; [exact G | discriminate].
Qed.

Lemma fw_mkdir_parents_exists root rparts f :
  is_dir cwd (str {| proot := root; pparts := rev rparts |}) f = true ->
  mkdir_parents cwd root rparts f = (WOk tt, f).
Proof.
  intros D; destruct rparts; cbn [mkdir_parents]; rewrite (fw_os_mkdir_exists _ _ D), D; reflexivity.
Qed.

Lemma fw_open_write_ok f b key : k_open_write cwd f b = KOk key ->
  key <> [] /\ lookup key f <> Some Dir /\
  forall f2, dirs_kept f f2 ->
    (forall d, lookup key f2 = Some (File d) -> k_read cwd f2 b = KOk d) /\
    (lookup key f2 <> Some Dir -> k_open_write cwd f2 b = KOk key).
Proof.
  unfold k_open_write, k_read; destruct (resolve_parent cwd f b) as [[cur [l|]]|e] eqn:E; try discriminate.
  destruct (is_dot l || is_dotdot l) eqn:Hd; [discriminate|].
  destruct (lookup (cur ++ [l]) f) as [[|d0]|] eqn:Hl; try discriminate;
    intros H; injection H as <-;
    (split; [apply fw_app_cons_nonempty | split; [congruence|]]);
    intros f2 Hk; rewrite (fw_resolve_kept _ _ _ _ Hk E), Hd;
    (split; [intros d -> ; reflexivity | destruct (lookup (cur ++ [l]) f2) as [[|]|]; congruence]).
Qed.

End Kept.

Lemma fw_utf8_strict_ok i s : existsb is_surrogate s = false ->
  utf8_encode Strict i s = inl (flat_map utf8_char s).
Proof.
  revert i; induction s as [|c s IH]; intros i; cbn; [reflexivity|].
  destruct (is_surrogate c); [discriminate|]; cbn; intros H; rewrite (IH _ H); reflexivity.
Qed.

Lemma fw_utf8_strict_err i s a z : utf8_encode Strict i s = inr (a, z) ->
  (i <= a)%nat /\ is_surrogate (nth (a - i) s 0%N) = true /\
  (forall j, (j < a - i)%nat -> is_surrogate (nth j s 0%N) = false).
Proof.
  revert i; induction s as [|c s IH]; intros i; cbn; [discriminate|].
  destruct (is_surrogate c) eqn:Hc.
  - intros H; injection H as <- _; rewrite Nat.sub_diag; split; [lia|split; [exact Hc | intros j Hj; lia]].
  - destruct (utf8_encode Strict (S i) s) as [|[a' z']] eqn:E; [discriminate|].
    intros H; injection H as -> ->.
    destruct (IH _ E) as (Hle & Hs & Hb).
    replace (a - i)%nat with (S (a - S i)) by lia.
    split; [lia | split; [exact Hs|]].
    intros [|j] Hj; [exact Hc | apply Hb; lia].
Qed.

Lemma fw_utf8_strict_has i s : existsb is_surrogate s = true ->
  exists a z, utf8_encode Strict i s = inr (a, z).
Proof.
  revert i; induction s as [|c s IH]; intros i; cbn; [discriminate|].
  destruct (is_surrogate c); cbn; [intros _; eauto|].
  intros H; destruct (IH (S i) H) as (a & z & E); rewrite E; eauto.
Qed.

Section Writes.
Variable cwd : list bytes.

Lemma fw_write_text p content f r f' : write_text cwd p content f = (r, f') ->
  (f' = f /\ exists x, r = WRaise x) \/
  exists b key, fs_path (str p) = WOk b /\ k_open_write cwd f b = KOk key /\
    ((exists a z, utf8_encode Strict 0 content = inr (a, z) /\
        r = WRaise (UnicodeEncodeError content a z) /\ f' = fs_set key (File []) f) \/
     (utf8_encode Strict 0 content = inl (flat_map utf8_char content) /\
        r = WOk tt /\ f' = fs_set key (File (flat_map utf8_char content)) f)).
Proof.
  unfold write_text; destruct (fs_path (str p)) as [b|x] eqn:Hp;
    [|intros H; injection H as <- <-; left; eauto].
  destruct (k_open_write cwd f b) as [key|e] eqn:Ho; [|intros H; injection H as <- <-; left; eauto].
  right; exists b, key; split; [reflexivity | split; [exact Ho|]].
  revert H; destruct (existsb is_surrogate content) eqn:Hs.
  - destruct (fw_utf8_strict_has 0 _ Hs) as (a & z & E); rewrite E.
    intros H0; injection H0 as <- <-; left; eauto.
  - rewrite (fw_utf8_strict_ok 0 _ Hs), fw_set_set.
    intros H0; injection H0 as <- <-; right; auto.
Qed.

Lemma fw_read_open f b d : k_read cwd f b = KOk d ->
  exists key, k_open_write cwd f b = KOk key /\ lookup key f = Some (File d).
Proof.
  unfold k_read, k_open_write; destruct (resolve_parent cwd f b) as [[cur [l|]]|e]; try discriminate.
  destruct (is_dot l || is_dotdot l); [discriminate|].
  destruct (lookup (cur ++ [l]) f) as [[|d']|] eqn:E; try discriminate.
  intros H; injection H as <-; eauto.
Qed.

Lemma fw_mkdir_parents_run slug path f r f1 :
  mkdir_parents cwd (proot (parent (file_path slug path))) (rev (pparts (parent (file_path slug path)))) f = (r, f1) ->
  grows f f1 /\ (r = WOk tt -> is_dir cwd (str (parent (file_path slug path))) f1 = true).
Proof.
  intros H; apply fw_mkdir_parents in H; rewrite rev_involutive in H.
  destruct (parent (file_path slug path)); exact H.
Qed.

Lemma fw_mkdir_parents_run_exists slug path f :
  is_dir cwd (str (parent (file_path slug path))) f = true ->
  mkdir_parents cwd (proot (parent (file_path slug path))) (rev (pparts (parent (file_path slug path)))) f = (WOk tt, f).
Proof.
  intros H; apply fw_mkdir_parents_exists; rewrite rev_involutive.
  destruct (parent (file_path slug path)); exact H.
Qed.

End Writes.

(** When [path] starts with a slash, [OUTPUT_DIR / project_slug / path] is [path] itself: the file written, the directories created and the message do not depend on [project_slug]. *)
Theorem run_absolute_path_ignores_slug pr cwd slug1 slug2 path content f :
  hd 0%N path = 47%N ->
  file_path slug1 path = parse path /\
  run pr cwd slug1 path content f = run pr cwd slug2 path content f.
Proof.
  destruct path as [|c r]; cbn [hd]; intros Hc; [discriminate|subst c].
  assert (Hj : forall a, pjoin a (47%N :: r) = 47%N :: r) by reflexivity.
  unfold run, file_path; rewrite !Hj; split; reflexivity.
Qed.

(** After an [OK] message the content has no surrogate, and reading the file at the path in the message gives back the UTF-8 encoding of the content. *)
Theorem run_ok_reads_back pr cwd slug path content f msg f' :
  run pr cwd slug path content f = (msg, f') -> firstn 3 msg = codes "OK:" ->
  existsb is_surrogate content = false /\
  read_bytes cwd (str (file_path slug path)) f' = WOk (flat_map utf8_char content).
Proof.
  unfold run; set (fp := file_path slug path).
  destruct (mkdir_parents cwd (proot (parent fp)) (rev (pparts (parent fp))) f) as [[u|x] f1] eqn:E1;
    [|intros H; injection H as <- <-; cbn; discriminate].
  destruct (write_text cwd fp content f1) as [[u2|x2] f2] eqn:E2;
    [|intros H; injection H as <- <-; cbn; discriminate].
  intros H _; injection H as _ <-.
  apply fw_write_text in E2.
  destruct E2 as [[_ [x Hx]]|(b & key & Hp & Ho & [(a & z & _ & Hr & _)|(Hu & _ & ->)])];
    try discriminate.
  split.
  - destruct (existsb is_surrogate content) eqn:Hs; [|reflexivity].
    destruct (fw_utf8_strict_has 0 _ Hs) as (a & z & E); congruence.
  - unfold read_bytes; rewrite Hp.
    destruct (fw_open_write_ok _ _ _ _ Ho) as (Hne & Hnd & K).
    destruct (K (fs_set key (File (flat_map utf8_char content)) f1)) as [R _];
      [apply fw_dirs_kept_set; assumption|].
    rewrite (R _ (fw_lookup_set_same _ _ _ Hne)); reflexivity.
Qed.

(** After an [OK] message, running the tool again with the same arguments gives the same message and leaves the disk as it is. *)
Theorem run_ok_idempotent pr cwd slug path content f msg f' :
  run pr cwd slug path content f = (msg, f') -> firstn 3 msg = codes "OK:" ->
  run pr cwd slug path content f' = (msg, f').
Proof.
  unfold run; set (fp := file_path slug path).
  destruct (mkdir_parents cwd (proot (parent fp)) (rev (pparts (parent fp))) f) as [[u|x] f1] eqn:E1;
    [|intros H; injection H as <- <-; cbn; discriminate].
  destruct (write_text cwd fp content f1) as [[u2|x2] f2] eqn:E2;
    [|intros H; injection H as <- <-; cbn; discriminate].
  intros H _; injection H as <- <-.
  destruct u; apply fw_mkdir_parents_run in E1; destruct E1 as [_ D1]; specialize (D1 eq_refl).
  apply fw_write_text in E2.
  destruct E2 as [[_ [x Hx]]|(b & key & Hp & Ho & [(a & z & _ & Hr & _)|(Hu & _ & ->)])];
    try discriminate.
  destruct (fw_open_write_ok _ _ _ _ Ho) as (Hne & Hnd & K).
  assert (Hk : dirs_kept f1 (fs_set key (File (flat_map utf8_char content)) f1))
    by (apply fw_dirs_kept_set; assumption).
  unfold fp; rewrite (fw_mkdir_parents_run_exists _ slug path _ (fw_is_dir_kept _ _ _ _ Hk D1)).
  fold fp; unfold write_text; rewrite Hp.
  destruct (K _ Hk) as [_ O]; rewrite O by (rewrite fw_lookup_set_same by exact Hne; discriminate).
  rewrite Hu, !fw_set_set; reflexivity.
Qed.

(** When the parent directory exists and the target is a regular file, a content with a surrogate gives the [UnicodeEncodeError] message, naming the position of the first surrogate, and leaves the file empty: it is truncated before the content is encoded. *)
Theorem run_surrogate_truncates pr cwd slug path content f old msg f' :
  is_dir cwd (str (parent (file_path slug path))) f = true ->
  read_bytes cwd (str (file_path slug path)) f = WOk old ->
  existsb is_surrogate content = true ->
  run pr cwd slug path content f = (msg, f') ->
  read_bytes cwd (str (file_path slug path)) f' = WOk [] /\
  exists a z, msg = codes "ERROR: " ++ exn_str pr (UnicodeEncodeError content a z) /\
    is_surrogate (nth a content 0%N) = true /\
    (forall j, (j < a)%nat -> is_surrogate (nth j content 0%N) = false).
Proof.
  intros D R Hs; unfold run; rewrite (fw_mkdir_parents_run_exists _ _ _ _ D).
  set (fp := file_path slug path) in *.
  unfold read_bytes in R; destruct (fs_path (str fp)) as [b|] eqn:Hp; [|discriminate].
  destruct (k_read cwd f b) as [d|] eqn:Hr; [|discriminate].
  destruct (fw_read_open _ _ _ _ Hr) as (key & Ho & Hl).
  destruct (fw_utf8_strict_has 0 _ Hs) as (a & z & Hu).
  unfold write_text; rewrite Hp, Ho, Hu.
  intros H; injection H as <- <-.
  destruct (fw_open_write_ok _ _ _ _ Ho) as (Hne & Hnd & K).
  destruct (K (fs_set key (File []) f)) as [Rd _]; [apply fw_dirs_kept_set; assumption|].
  split.
  - unfold read_bytes; rewrite Hp, (Rd _ (fw_lookup_set_same _ _ _ Hne)); reflexivity.
  - exists a, z; split; [reflexivity|].
    destruct (fw_utf8_strict_err _ _ _ _ Hu) as (_ & H1 & H2); rewrite Nat.sub_0_r in H1, H2.
    split; assumption.
Qed.

(** Whatever the outcome, the tool keeps every directory, and every entry but one keeps its node; the entries it adds besides that one are directories. *)
Theorem run_changes_one_file pr cwd slug path content f msg f' :
  run pr cwd slug path content f = (msg, f') ->
  (forall k, lookup k f = Some Dir -> lookup k f' = Some Dir) /\
  exists key, forall k, k <> key ->
    (forall n, lookup k f = Some n -> lookup k f' = Some n) /\
    (lookup k f = None -> lookup k f' = None \/ lookup k f' = Some Dir).
Proof.
  unfold run; set (fp := file_path slug path).
  destruct (mkdir_parents cwd (proot (parent fp)) (rev (pparts (parent fp))) f) as [r1 f1] eqn:E1.
  apply fw_mkdir_parents_run in E1; destruct E1 as [[G1 G2] _].
  assert (Hgen : forall f2, (f2 = f1 \/ exists key n, key <> [] /\ lookup key f1 <> Some Dir /\ f2 = fs_set key n f1) ->
    (forall k, lookup k f = Some Dir -> lookup k f2 = Some Dir) /\
    exists key, forall k, k <> key ->
      (forall n, lookup k f = Some n -> lookup k f2 = Some n) /\
      (lookup k f = None -> lookup k f2 = None \/ lookup k f2 = Some Dir)).
  { intros f2 [->|(key & n & Hne & Hnd & ->)].
    - split; [intros k; apply G1|]; exists []; intros k _; split; [apply G1 | apply G2].
    - split.
      + intros k Hk; apply G1 in Hk; rewrite fw_lookup_set_other; [exact Hk | exact Hne | intros ->; congruence].
      + exists key; intros k Hk; rewrite fw_lookup_set_other by assumption; split; [apply G1 | apply G2]. }
  destruct r1 as [u|x]; [|intros H; injection H as _ <-; apply Hgen; left; reflexivity].
  destruct (write_text cwd fp content f1) as [r2 f2] eqn:E2.
  assert (Hf2 : f2 = f1 \/ exists key n, key <> [] /\ lookup key f1 <> Some Dir /\ f2 = fs_set key n f1).
  { apply fw_write_text in E2.
    destruct E2 as [[-> _]|(b & key & _ & Ho & [(a & z & _ & _ & ->)|(_ & _ & ->)])]; [left; reflexivity| |];
      destruct (fw_open_write_ok _ _ _ _ Ho) as (Hne & Hnd & _); right; eauto 6. }
  destruct r2; intros H; injection H as _ <-; apply Hgen; exact Hf2.
Qed.

Lemma run_absolute_path_ignores_slug_witness :
  file_path (codes "a") (codes "/tmp/x") = parse (codes "/tmp/x") /\
  run no_extra_printable fw_cwd (codes "a") (codes "/tmp/x") (codes "hi") fw_fs0
  = run no_extra_printable fw_cwd (codes "b") (codes "/tmp/x") (codes "hi") fw_fs0.
Proof. refine (run_absolute_path_ignores_slug _ _ _ _ _ _ _ _); reflexivity. Defined.

Lemma run_ok_reads_back_witness :
  existsb is_surrogate (codes "hi") = false /\
  read_bytes fw_cwd (str (file_path (codes "proj") (codes "a/b.txt"))) fw_fs1
  = WOk (flat_map utf8_char (codes "hi")).
Proof.
  refine (run_ok_reads_back no_extra_printable fw_cwd _ _ _ fw_fs0
            (fst (run no_extra_printable fw_cwd (codes "proj") (codes "a/b.txt") (codes "hi") fw_fs0))
            fw_fs1 _ _); vm_compute; reflexivity.
Defined.

Lemma run_ok_idempotent_witness :
  run no_extra_printable fw_cwd (codes "proj") (codes "a/b.txt") (codes "hi") fw_fs1
  = (fst (run no_extra_printable fw_cwd (codes "proj") (codes "a/b.txt") (codes "hi") fw_fs0), fw_fs1).
Proof.
  refine (run_ok_idempotent no_extra_printable fw_cwd _ _ _ fw_fs0 _ fw_fs1 _ _); vm_compute; reflexivity.
Defined.

Lemma run_surrogate_truncates_witness :
  read_bytes fw_cwd (str (file_path (codes "proj") (codes "a/b.txt")))
    (snd (run no_extra_printable fw_cwd (codes "proj") (codes "a/b.txt") [55296%N; 122%N] fw_fs1)) = WOk [] /\
  exists a z,
    fst (run no_extra_printable fw_cwd (codes "proj") (codes "a/b.txt") [55296%N; 122%N] fw_fs1)
    = codes "ERROR: " ++ exn_str no_extra_printable (UnicodeEncodeError [55296%N; 122%N] a z) /\
    is_surrogate (nth a [55296%N; 122%N] 0%N) = true /\
    (forall j, (j < a)%nat -> is_surrogate (nth j [55296%N; 122%N] 0%N) = false).
Proof.
  refine (run_surrogate_truncates no_extra_printable fw_cwd _ _ _ fw_fs1 (codes "hi") _ _ _ _ _ _);
    vm_compute; reflexivity.
Defined.

Lemma run_changes_one_file_witness :
  fst fw_fs2 = codes "ERROR: [Errno 17] File exists: 'output/proj/a/b.txt'" /\
  (forall k, lookup k fw_fs1 = Some Dir -> lookup k (snd fw_fs2) = Some Dir) /\
  exists key, forall k, k <> key ->
    (forall n, lookup k fw_fs1 = Some n -> lookup k (snd fw_fs2) = Some n) /\
    (lookup k fw_fs1 = None -> lookup k (snd fw_fs2) = None \/ lookup k (snd fw_fs2) = Some Dir).
Proof.
  split; [vm_compute; reflexivity|].
  refine (run_changes_one_file no_extra_printable fw_cwd (codes "proj") (codes "a/b.txt/c") (codes "x")
            fw_fs1 (fst fw_fs2) (snd fw_fs2) _).
  vm_compute; reflexivity.
Defined.

End FileWriterExtras.
